(** * Voice-interaction orchestrator of the drive-thru front end

    A shallow embedding of the React components that drive one station:
    the shared contexts (SpeakerContext, SessionContext, OrderContext), the
    car controls (CarControlComponent with its greeting AudioPlayer) and the
    microphone components (SpeakerIcon, FloatingMicrophone, VoiceRecorder).

    Every handler of the source is a function on explicit state.  An [async]
    handler is cut at each [await]: the part before it is the [_entry]
    function, the part after it the [_settled] (or [_granted]/[_denied])
    function, which receives the settlement of the awaited promise and the
    values its closure captured when the handler was created.  A handler
    reads the state of the latest render.  Platform
    effects (devices opened, [MediaRecorder.stop] calls, sounds sent to the
    audio output, requests sent to the backend) are recorded in the state so
    that theorems can speak about them. *)

From Stdlib Require Import String Ascii ZArith List Bool Lia.
From Stdlib Require Import Decimal DecimalString DecimalNat DecimalZ DecimalPos.
Import ListNotations.
Local Open Scope string_scope.

(** ** JavaScript values *)

Module JS.

(** [!!s] for a string and [!!n] for a number. *)
Definition truthy_string (s : string) : bool := negb (String.eqb s EmptyString).
Definition truthy_number (n : Z) : bool := negb (Z.eqb n 0).

(** [!!x] for [x : T | null]. *)
Definition truthy {A} (t : A -> bool) (x : option A) : bool :=
  match x with Some a => t a | None => false end.

(** [x || null] *)
Definition or_null (x : option string) : option string :=
  if truthy truthy_string x then x else None.

(** Settlement of a promise; [apiClient.request] always rejects with an
    [Error], whose message is kept. *)
Inductive settled (A : Type) : Type :=
| Resolved (value : A)
| Rejected (message : string).
Arguments Resolved {A} value.
Arguments Rejected {A} message.

End JS.

(** ** lib/api.ts: the answers of the backend *)

Module Api.

Record NewSession := mkNewSession
  { ns_success : bool; ns_session_id : string; ns_greeting_audio_url : option string }.

Record ClearSession := mkClearSession { cs_success : bool }.

Record ProcessAudio := mkProcessAudio
  { success : bool;
    audio_url : option string;
    response_text : string;
    order_state_changed : bool }.

(** Requests sent, in order. *)
Inductive call : Type :=
| createNewSession (restaurantId : Z)
| clearCurrentSession
| processAudio (sessionId : option string) (restaurantId : Z).

End Api.

(** ** contexts/SpeakerContext: three independent flags with plain setters *)

Module Speaker.

Record t := mk { isAISpeaking : bool; isUserSpeaking : bool; isAPIProcessing : bool }.

Definition init : t := mk false false false.

Definition setAISpeaking (speaking : bool) (s : t) : t :=
  mk speaking (isUserSpeaking s) (isAPIProcessing s).
Definition setUserSpeaking (speaking : bool) (s : t) : t :=
  mk (isAISpeaking s) speaking (isAPIProcessing s).
Definition setAPIProcessing (processing : bool) (s : t) : t :=
  mk (isAISpeaking s) (isUserSpeaking s) processing.

(** No flag is up. *)
Definition idle (s : t) : bool :=
  negb (isAISpeaking s) && negb (isUserSpeaking s) && negb (isAPIProcessing s).

(** The customer and the AI are not both reported speaking. *)
Definition exclusive (s : t) : bool := negb (isUserSpeaking s && isAISpeaking s).

End Speaker.

(** ** contexts/SessionContext: the state of the provider *)

Module Session.

Record t := mk
  { sessionId : option string;
    restaurantId : option Z;
    greetingAudioUrl : option string;
    isLoading : bool;
    error : option string }.

Definition init : t := mk None None None false None.

(** [!sessionId || !restaurantId] is false. *)
Definition live (s : t) : bool :=
  JS.truthy JS.truthy_string (sessionId s) && JS.truthy JS.truthy_number (restaurantId s).

(** No session id, restaurant id or greeting is stored. *)
Definition cleared (s : t) : bool :=
  match sessionId s, restaurantId s, greetingAudioUrl s with
  | None, None, None => true
  | _, _, _ => false
  end.

End Session.

(** ** What reaches the audio output *)

Inductive AudioSrc : Type :=
| Url (u : string)
  (** [getCannedPhraseUrl(phrase, restaurantId)]: the file
      [canned-phrases/restaurant-<rid>/<phrase>.mp3] of the bucket, where
      [rid] is the argument or, without one, the configured default *)
| CannedPhraseUrl (phrase : string) (restaurantId : option Z).

(** ** The state shared by all components, with the platform's effects *)

Record World := mkWorld
  { session : Session.t;
    speaker : Speaker.t;
    refreshTrigger : nat;            (* OrderContext *)
    aiLog : list bool;               (* arguments of the setAISpeaking calls *)
    apiLog : list Api.call;          (* requests sent to the backend *)
    mediaCalls : nat;                (* getUserMedia calls of the capture path *)
    openStreams : nat;               (* input streams granted and not yet stopped *)
    stopCalls : nat;                 (* MediaRecorder.stop calls *)
    played : list AudioSrc;          (* playbacks started *)
    refreshOrderCalls : nat          (* orderComponentRef.current.refreshOrder calls *)
  }.

Definition world0 : World :=
  mkWorld Session.init Speaker.init 0 [] [] 0 0 0 [] 0.

Definition upd_session (f : Session.t -> Session.t) (w : World) : World :=
  mkWorld (f (session w)) (speaker w) (refreshTrigger w) (aiLog w) (apiLog w)
          (mediaCalls w) (openStreams w) (stopCalls w) (played w) (refreshOrderCalls w).
Definition upd_speaker (f : Speaker.t -> Speaker.t) (w : World) : World :=
  mkWorld (session w) (f (speaker w)) (refreshTrigger w) (aiLog w) (apiLog w)
          (mediaCalls w) (openStreams w) (stopCalls w) (played w) (refreshOrderCalls w).
Definition upd_refreshTrigger (f : nat -> nat) (w : World) : World :=
  mkWorld (session w) (speaker w) (f (refreshTrigger w)) (aiLog w) (apiLog w)
          (mediaCalls w) (openStreams w) (stopCalls w) (played w) (refreshOrderCalls w).
Definition log_ai (b : bool) (w : World) : World :=
  mkWorld (session w) (speaker w) (refreshTrigger w) (aiLog w ++ [b]) (apiLog w)
          (mediaCalls w) (openStreams w) (stopCalls w) (played w) (refreshOrderCalls w).
Definition send (c : Api.call) (w : World) : World :=
  mkWorld (session w) (speaker w) (refreshTrigger w) (aiLog w) (apiLog w ++ [c])
          (mediaCalls w) (openStreams w) (stopCalls w) (played w) (refreshOrderCalls w).
Definition getUserMedia (w : World) : World :=
  mkWorld (session w) (speaker w) (refreshTrigger w) (aiLog w) (apiLog w)
          (S (mediaCalls w)) (openStreams w) (stopCalls w) (played w) (refreshOrderCalls w).
Definition upd_openStreams (f : nat -> nat) (w : World) : World :=
  mkWorld (session w) (speaker w) (refreshTrigger w) (aiLog w) (apiLog w)
          (mediaCalls w) (f (openStreams w)) (stopCalls w) (played w) (refreshOrderCalls w).
Definition count_stop (w : World) : World :=
  mkWorld (session w) (speaker w) (refreshTrigger w) (aiLog w) (apiLog w)
          (mediaCalls w) (openStreams w) (S (stopCalls w)) (played w) (refreshOrderCalls w).
Definition play (a : AudioSrc) (w : World) : World :=
  mkWorld (session w) (speaker w) (refreshTrigger w) (aiLog w) (apiLog w)
          (mediaCalls w) (openStreams w) (stopCalls w) (played w ++ [a]) (refreshOrderCalls w).
Definition count_refreshOrder (w : World) : World :=
  mkWorld (session w) (speaker w) (refreshTrigger w) (aiLog w) (apiLog w)
          (mediaCalls w) (openStreams w) (stopCalls w) (played w) (S (refreshOrderCalls w)).

(** The setters the contexts hand to the components. *)
Definition setAISpeaking (b : bool) (w : World) : World :=
  log_ai b (upd_speaker (Speaker.setAISpeaking b) w).
Definition setUserSpeaking (b : bool) (w : World) : World :=
  upd_speaker (Speaker.setUserSpeaking b) w.
Definition setAPIProcessing (b : bool) (w : World) : World :=
  upd_speaker (Speaker.setAPIProcessing b) w.

(** OrderContext.triggerOrderRefresh: [setRefreshTrigger(prev => prev + 1)]. *)
Definition triggerOrderRefresh (w : World) : World := upd_refreshTrigger S w.

(** ** SessionProvider *)

Module SessionProvider.

Definition setError (e : option string) (s : Session.t) : Session.t :=
  Session.mk (Session.sessionId s) (Session.restaurantId s) (Session.greetingAudioUrl s)
             (Session.isLoading s) e.
Definition setIsLoading (b : bool) (s : Session.t) : Session.t :=
  Session.mk (Session.sessionId s) (Session.restaurantId s) (Session.greetingAudioUrl s)
             b (Session.error s).
Definition setLive (sid : option string) (rid : option Z) (g : option string)
           (s : Session.t) : Session.t :=
  Session.mk sid rid g (Session.isLoading s) (Session.error s).

(** createSession, up to [await apiClient.createNewSession(newRestaurantId)]. *)
Definition createSession_entry (newRestaurantId : Z) (w : World) : World :=
  send (Api.createNewSession newRestaurantId)
       (upd_session (fun s => setError None (setIsLoading true s)) w).

(** createSession, after the await. *)
Definition createSession_settled (newRestaurantId : Z)
           (r : JS.settled Api.NewSession) (w : World) : World :=
  let body (s : Session.t) : Session.t :=
    match r with
    | JS.Resolved response =>
        if Api.ns_success response then
          setLive (Some (Api.ns_session_id response)) (Some newRestaurantId)
                  (JS.or_null (Api.ns_greeting_audio_url response)) s
        else setError (Some "Failed to create session") s
    | JS.Rejected message => setError (Some message) s
    end in
  upd_session (fun s => setIsLoading false (body s)) w.

(** clearSession, up to [await apiClient.clearCurrentSession()]. *)
Definition clearSession_entry (w : World) : World :=
  send Api.clearCurrentSession
       (upd_session (fun s => setError None (setIsLoading true s)) w).

(** clearSession, after the await. *)
Definition clearSession_settled (r : JS.settled Api.ClearSession) (w : World) : World :=
  let body (s : Session.t) : Session.t :=
    match r with
    | JS.Resolved response =>
        if Api.cs_success response then setLive None None None s
        else setError (Some "Failed to clear session") s
    | JS.Rejected message => setError (Some message) s
    end in
  upd_session (fun s => setIsLoading false (body s)) w.

(** One whole call of clearSession whose request the backend answers with [r]. *)
Definition clearSession (r : JS.settled Api.ClearSession) (w : World) : World :=
  clearSession_settled r (clearSession_entry w).

(** One whole call of createSession. *)
Definition createSession (newRestaurantId : Z) (r : JS.settled Api.NewSession)
           (w : World) : World :=
  createSession_settled newRestaurantId r (createSession_entry newRestaurantId w).

End SessionProvider.

(** ** MediaRecorder and the closures of its handlers *)

(** What the handlers created in one render close over: the [sessionId] and
    [restaurantId] of that render. *)
Record Capture := mkCapture
  { cap_sessionId : option string; cap_restaurantId : option Z }.

Definition capture (w : World) : Capture :=
  mkCapture (Session.sessionId (session w)) (Session.restaurantId (session w)).

Definition cap_live (c : Capture) : bool :=
  JS.truthy JS.truthy_string (cap_sessionId c) && JS.truthy JS.truthy_number (cap_restaurantId c).

Inductive RecordingState : Type := inactive | recording.

(** A recorder with the closure of its [onstop] handler. *)
Record MediaRecorder := mkRecorder { rec_state : RecordingState; rec_onstop : Capture }.

(** [recorder.stop()]: throws on an inactive recorder ([None]), which ends
    the handler that called it; otherwise the recorder becomes inactive and
    its stop event is queued. *)
Definition recorder_stop (r : MediaRecorder) : option MediaRecorder :=
  match rec_state r with
  | inactive => None
  | recording => Some (mkRecorder inactive (rec_onstop r))
  end.

(** Outcome of one playback of an [Audio] object: it runs to its end, it
    fails (the [error] event, or [play()] rejects), or it is stopped. *)
Inductive playback : Type := ended | failed | paused.

(** lib/s3-utils.ts, playCannedPhrase: the promise resolves on [onended] and
    rejects on [onerror] or when [play()] rejects; a stopped playback leaves
    it pending ([None]). *)
Definition playCannedPhrase (o : playback) : option (JS.settled unit) :=
  match o with
  | ended => Some (JS.Resolved tt)
  | failed => Some (JS.Rejected "Failed to play audio")
  | paused => None
  end.

(** [hasPermission === false] and [!hasPermission]. *)
Definition is_false (p : option bool) : bool :=
  match p with Some false => true | _ => false end.
Definition is_true (p : option bool) : bool :=
  match p with Some true => true | _ => false end.

(** ** components/SpeakerIcon.tsx (press and hold) *)

Module SpeakerIcon.

Record t := mk
  { isMouseDown : bool;
    isRecording : bool;
    isProcessing : bool;
    recordingTime : nat;
    error : option string;
    hasPermission : option bool;
    mediaRecorderRef : option MediaRecorder;
    timerRef : bool;                 (* timerRef.current is an interval *)
    mediaPending : list Capture;     (* getUserMedia promises of startRecording *)
    stopQueued : list Capture;       (* stop events not yet delivered *)
    inflight : list Capture;         (* processAudio requests not yet answered *)
    cannedPending : nat;             (* playCannedPhrase promises not yet settled *)
    audios : nat;                    (* response audios playing *)
    timeouts : nat                   (* pending setTimeout(..., 3000) *)
  }.

Definition init : t := mk false false false 0 None None None false [] [] [] 0 0 0.

Definition St : Type := World * t.

Definition setIsMouseDown (b : bool) (c : t) : t :=
  mk b (isRecording c) (isProcessing c) (recordingTime c) (error c) (hasPermission c)
     (mediaRecorderRef c) (timerRef c) (mediaPending c) (stopQueued c) (inflight c)
     (cannedPending c) (audios c) (timeouts c).
Definition setIsProcessing (b : bool) (c : t) : t :=
  mk (isMouseDown c) (isRecording c) b (recordingTime c) (error c) (hasPermission c)
     (mediaRecorderRef c) (timerRef c) (mediaPending c) (stopQueued c) (inflight c)
     (cannedPending c) (audios c) (timeouts c).
Definition setError (e : option string) (c : t) : t :=
  mk (isMouseDown c) (isRecording c) (isProcessing c) (recordingTime c) e (hasPermission c)
     (mediaRecorderRef c) (timerRef c) (mediaPending c) (stopQueued c) (inflight c)
     (cannedPending c) (audios c) (timeouts c).
Definition setHasPermission (p : option bool) (c : t) : t :=
  mk (isMouseDown c) (isRecording c) (isProcessing c) (recordingTime c) (error c) p
     (mediaRecorderRef c) (timerRef c) (mediaPending c) (stopQueued c) (inflight c)
     (cannedPending c) (audios c) (timeouts c).
(** The recording fields written together by startRecording and stopRecording. *)
Definition setRecording (rec : bool) (time : nat) (r : option MediaRecorder)
           (timer : bool) (c : t) : t :=
  mk (isMouseDown c) rec (isProcessing c) time (error c) (hasPermission c)
     r timer (mediaPending c) (stopQueued c) (inflight c)
     (cannedPending c) (audios c) (timeouts c).
Definition setQueues (mp sq fl : list Capture) (c : t) : t :=
  mk (isMouseDown c) (isRecording c) (isProcessing c) (recordingTime c) (error c)
     (hasPermission c) (mediaRecorderRef c) (timerRef c) mp sq fl
     (cannedPending c) (audios c) (timeouts c).
Definition setPlayers (cp au to : nat) (c : t) : t :=
  mk (isMouseDown c) (isRecording c) (isProcessing c) (recordingTime c) (error c)
     (hasPermission c) (mediaRecorderRef c) (timerRef c) (mediaPending c) (stopQueued c)
     (inflight c) cp au to.

(** checkMicrophonePermission, after its getUserMedia settled. *)
Definition checkMicrophonePermission (granted : bool) (st : St) : St :=
  let '(w, c) := st in (w, setHasPermission (Some granted) c).

(** startRecording, up to [await getUserMedia]. *)
Definition startRecording_entry (st : St) : St :=
  let '(w, c) := st in
  (getUserMedia w,
   setQueues (mediaPending c ++ [capture w]) (stopQueued c) (inflight c) c).

(** startRecording, after the stream was granted. *)
Definition startRecording_granted (k : Capture) (st : St) : St :=
  let '(w, c) := st in
  (setUserSpeaking true (upd_openStreams S w),
   setRecording true 0 (Some (mkRecorder recording k)) true c).

(** startRecording, the catch branch. *)
Definition startRecording_denied (st : St) : St :=
  let '(w, c) := st in (w, setHasPermission (Some false) c).

Definition stopRecording (st : St) : St :=
  let '(w, c) := st in
  match mediaRecorderRef c with
  | Some r =>
      if isRecording c then
        match recorder_stop r with
        | Some r' =>
            (setUserSpeaking false (count_stop w),
             setRecording false (recordingTime c) (Some r') false
               (setQueues (mediaPending c) (stopQueued c ++ [rec_onstop r]) (inflight c) c))
        | None => (count_stop w, c)
        end
      else st
  | None => st
  end.

(** processRecording, up to [await apiClient.processAudio]. *)
Definition processRecording_entry (k : Capture) (st : St) : St :=
  let '(w, c) := st in
  match cap_sessionId k, cap_restaurantId k with
  | Some sid, Some rid =>
      if cap_live k then
        (send (Api.processAudio (Some sid) rid) w,
         setQueues (mediaPending c) (stopQueued c) (inflight c ++ [k])
                   (setError None (setIsProcessing true c)))
      else st
  | _, _ => st
  end.

(** The [onstop] handler of the recorder: processRecording is started, then
    the tracks of the stream are stopped. *)
Definition onstop (k : Capture) (st : St) : St :=
  let '(w, c) := processRecording_entry k st in
  (upd_openStreams pred w, c).

(** The catch branch of processRecording, up to [await playCannedPhrase]. *)
Definition processRecording_catch (k : Capture) (message : string) (st : St) : St :=
  let '(w, c) := st in
  (play (CannedPhraseUrl "come_again" (cap_restaurantId k)) w,
   setPlayers (S (cannedPending c)) (audios c) (timeouts c) (setError (Some message) c)).

(** processRecording, after [await apiClient.processAudio]. *)
Definition processRecording_settled (k : Capture) (r : JS.settled Api.ProcessAudio)
           (st : St) : St :=
  let '(w, c) := st in
  match r with
  | JS.Resolved response =>
      if Api.success response then
        let '(w1, c1) :=
          match Api.audio_url response with
          | Some u =>
              if JS.truthy_string u then
                (setAISpeaking true (play (Url u) w),
                 setPlayers (cannedPending c) (S (audios c)) (timeouts c) c)
              else (setAISpeaking false w, c)
          | None => (setAISpeaking false w, c)
          end in
        let w2 := if Api.order_state_changed response then triggerOrderRefresh w1 else w1 in
        (w2, setIsProcessing false c1)
      else processRecording_catch k "Failed to process audio" st
  | JS.Rejected message => processRecording_catch k message st
  end.

(** processRecording, after [await playCannedPhrase]. *)
Definition processRecording_canned (r : JS.settled unit) (st : St) : St :=
  let '(w, c) := st in
  let c' := setPlayers (pred (cannedPending c)) (audios c) (timeouts c) c in
  match r with
  | JS.Resolved _ =>
      (setAISpeaking true w,
       setIsProcessing false
         (setPlayers (cannedPending c') (audios c') (S (timeouts c')) c'))
  | JS.Rejected _ => (w, setIsProcessing false c')
  end.

(** [setTimeout(() => setAISpeaking(false), 3000)] fires. *)
Definition timeout (st : St) : St :=
  let '(w, c) := st in
  (setAISpeaking false w, setPlayers (cannedPending c) (audios c) (pred (timeouts c)) c).

(** The response audio finishes: only [onended] has a handler. *)
Definition audio_done (o : playback) (st : St) : St :=
  let '(w, c) := st in
  let c' := setPlayers (cannedPending c) (pred (audios c)) (timeouts c) c in
  match o with
  | ended => (setAISpeaking false w, c')
  | _ => (w, c')
  end.

Definition handleMouseDown (isDisabled : bool) (st : St) : St :=
  let '(w, c) := st in
  if isDisabled then st
  else if isProcessing c then st
  else if negb (is_true (hasPermission c)) then st
  else if Speaker.isAISpeaking (speaker w) then st
  else startRecording_entry (w, setIsMouseDown true c).

Definition handleMouseUp (st : St) : St :=
  let '(w, c) := st in stopRecording (w, setIsMouseDown false c).

Definition handleMouseLeave (st : St) : St :=
  let '(w, c) := st in
  if isMouseDown c then stopRecording (w, setIsMouseDown false c) else st.

End SpeakerIcon.

(** ** components/FloatingMicrophone.tsx (click to start, click to stop) *)

Module FloatingMicrophone.

Record t := mk
  { isRecording : bool;
    recordingTime : nat;
    hasPermission : option bool;
    audioUrl : option string;
    responseText : string;
    mediaRecorderRef : option MediaRecorder;
    timerRef : bool;
    orderComponentRef : bool;        (* orderComponentRef?.current is set *)
    mediaPending : list Capture;
    stopQueued : list Capture;
    inflight : list Capture
  }.

Definition init : t := mk false 0 None None EmptyString None false true [] [] [].

Definition St : Type := World * t.

Definition setHasPermission (p : option bool) (c : t) : t :=
  mk (isRecording c) (recordingTime c) p (audioUrl c) (responseText c)
     (mediaRecorderRef c) (timerRef c) (orderComponentRef c)
     (mediaPending c) (stopQueued c) (inflight c).
Definition setAudioUrl (u : option string) (c : t) : t :=
  mk (isRecording c) (recordingTime c) (hasPermission c) u (responseText c)
     (mediaRecorderRef c) (timerRef c) (orderComponentRef c)
     (mediaPending c) (stopQueued c) (inflight c).
Definition setResponseText (s : string) (c : t) : t :=
  mk (isRecording c) (recordingTime c) (hasPermission c) (audioUrl c) s
     (mediaRecorderRef c) (timerRef c) (orderComponentRef c)
     (mediaPending c) (stopQueued c) (inflight c).
Definition setRecording (rec : bool) (time : nat) (r : option MediaRecorder)
           (timer : bool) (c : t) : t :=
  mk rec time (hasPermission c) (audioUrl c) (responseText c)
     r timer (orderComponentRef c)
     (mediaPending c) (stopQueued c) (inflight c).
Definition setQueues (mp sq fl : list Capture) (c : t) : t :=
  mk (isRecording c) (recordingTime c) (hasPermission c) (audioUrl c) (responseText c)
     (mediaRecorderRef c) (timerRef c) (orderComponentRef c) mp sq fl.

Definition checkMicrophonePermission (granted : bool) (st : St) : St :=
  let '(w, c) := st in (w, setHasPermission (Some granted) c).

(** The guard of startRecording, which is also the [disabled] attribute of
    the button. *)
Definition blocked (st : St) : bool :=
  let '(w, c) := st in
  negb (JS.truthy JS.truthy_string (Session.sessionId (session w)))
  || negb (JS.truthy JS.truthy_number (Session.restaurantId (session w)))
  || is_false (hasPermission c)
  || Speaker.isAISpeaking (speaker w)
  || Speaker.isAPIProcessing (speaker w).

(** startRecording, up to [await getUserMedia]. *)
Definition startRecording_entry (st : St) : St :=
  let '(w, c) := st in
  if blocked st then st
  else (getUserMedia w,
        setQueues (mediaPending c ++ [capture w]) (stopQueued c) (inflight c) c).

(** startRecording, after the stream was granted. *)
Definition startRecording_granted (k : Capture) (st : St) : St :=
  let '(w, c) := st in
  (setUserSpeaking true (upd_openStreams S w),
   setRecording true 0 (Some (mkRecorder recording k)) true c).

Definition startRecording_denied (st : St) : St :=
  let '(w, c) := st in (w, setHasPermission (Some false) c).

Definition stopRecording (st : St) : St :=
  let '(w, c) := st in
  match mediaRecorderRef c with
  | Some r =>
      if isRecording c then
        match recorder_stop r with
        | Some r' =>
            (count_stop w,
             setRecording (isRecording c) (recordingTime c) (Some r') (timerRef c)
               (setQueues (mediaPending c) (stopQueued c ++ [rec_onstop r]) (inflight c) c))
        | None => (count_stop w, c)
        end
      else st
  | None => st
  end.

(** The [onstop] handler, up to [await apiClient.processAudio].  Were the
    captured restaurant id null, [restaurantId.toString()] would throw
    inside the [try] and the catch and finally branches would run at once. *)
Definition onstop_entry (k : Capture) (st : St) : St :=
  let '(w, c) := st in
  let w1 := setAPIProcessing true (setUserSpeaking false (upd_openStreams pred w)) in
  let c1 := setRecording false (recordingTime c) (mediaRecorderRef c) false c in
  match cap_restaurantId k with
  | Some rid =>
      (send (Api.processAudio (cap_sessionId k) rid) w1,
       setQueues (mediaPending c1) (stopQueued c1) (inflight c1 ++ [k]) c1)
  | None =>
      (setAPIProcessing false w1, setResponseText "Error processing voice order." c1)
  end.

(** The component returns [null] while [hasPermission === false && !sessionId]:
    then neither the button nor the [<audio>] element is rendered. *)
Definition rendered (st : St) : bool :=
  let '(w, c) := st in
  negb (is_false (hasPermission c)
        && negb (JS.truthy JS.truthy_string (Session.sessionId (session w)))).

(** The source of the [<audio>] element that is rendered, if one is:
    [{audioUrl && <audio src={audioUrl} autoPlay ... />}] of a component that
    renders. *)
Definition audioSrc (st : St) : option string :=
  let '(w, c) := st in if rendered st then JS.or_null (audioUrl c) else None.

(** [<audio src={audioUrl} autoPlay>]: an element that is new, or whose
    source is, starts to play; [old] and [new] are the sources of the
    element before and after the render. *)
Definition autoPlay (old new : option string) (w : World) : World :=
  match new with
  | Some u =>
      if JS.truthy_string u then
        match old with
        | Some u0 => if String.eqb u0 u then w else play (Url u) w
        | None => play (Url u) w
        end
      else w
  | None => w
  end.

(** The [onstop] handler, after the await. *)
Definition onstop_settled (r : JS.settled Api.ProcessAudio) (st : St) : St :=
  let '(w, c) := st in
  let '(w1, c1) :=
    match r with
    | JS.Resolved response =>
        if Api.success response then
          let c1 := setAudioUrl (Api.audio_url response)
                      (setResponseText (Api.response_text response) c) in
          let w1 := autoPlay (audioSrc (w, c)) (audioSrc (w, c1)) w in
          let w2 := setAISpeaking (JS.truthy JS.truthy_string (Api.audio_url response)) w1 in
          let w3 := if Api.order_state_changed response && orderComponentRef c
                    then count_refreshOrder w2 else w2 in
          (w3, c1)
        else
          (w, setResponseText
                (if JS.truthy_string (Api.response_text response)
                 then Api.response_text response else "Failed to process audio.") c)
    | JS.Rejected _ => (w, setResponseText "Error processing voice order." c)
    end in
  (setAPIProcessing false w1, c1).

(** The handlers of the [<audio>] element. *)
Definition onPlay (st : St) : St := let '(w, c) := st in (setAISpeaking true w, c).
Definition onEnded (st : St) : St := let '(w, c) := st in (setAISpeaking false w, c).
Definition onPause (st : St) : St := let '(w, c) := st in (setAISpeaking false w, c).

(** A click on the button. *)
Definition onClick (st : St) : St :=
  let '(w, c) := st in
  if blocked st then st
  else if isRecording c then stopRecording st else startRecording_entry st.

End FloatingMicrophone.

(** ** components/VoiceRecorder.tsx *)

Module VoiceRecorder.

Record t := mk
  { isRecording : bool;
    recordingTime : nat;
    hasPermission : option bool;
    mediaRecorderRef : option MediaRecorder;
    timerRef : bool;
    stopQueued : list Capture }.

Definition St : Type := World * t.

(** [onRecordingStop] is a property of the component; VoiceOrderComponent
    passes handleRecordingStop, which calls [setUserSpeaking(false)]. *)
Definition handleRecordingStop (w : World) : World := setUserSpeaking false w.

Definition stopRecording (onRecordingStop : option (World -> World)) (st : St) : St :=
  let '(w, c) := st in
  match mediaRecorderRef c with
  | Some r =>
      if isRecording c then
        match recorder_stop r with
        | Some r' =>
            let w1 := count_stop w in
            (match onRecordingStop with Some f => f w1 | None => w1 end,
             mk false (recordingTime c) (hasPermission c) (Some r') false
                (stopQueued c ++ [rec_onstop r]))
        | None => (count_stop w, c)
        end
      else st
  | None => st
  end.

End VoiceRecorder.

(** ** components/CarControlComponent.tsx with its greeting AudioPlayer *)

Module CarControl.

Inductive awaiting : Type :=
| Nothing
| CreateSession (newRestaurantId : Z)
| ClearSession.

Record t := mk
  { currentCar : option Z;
    isProcessing : bool;
    error : option string;
    shouldPlayGreeting : bool;
    pending : awaiting;
    playPending : nat                (* play() promises of the AudioPlayer, unsettled *)
  }.

Definition init : t := mk None false None false Nothing 0.

Definition St : Type := World * t.

(** [restaurant?.id || 1] *)
Definition restaurant_or_1 (restaurant : option Z) : Z :=
  match restaurant with
  | Some id => if JS.truthy_number id then id else 1%Z
  | None => 1%Z
  end.

(** The source of the AudioPlayer: [shouldPlayGreeting ? greetingAudioUrl : null]. *)
Definition greetingSrc (st : St) : option string :=
  let '(w, c) := st in
  if shouldPlayGreeting c then Session.greetingAudioUrl (session w) else None.

(** AudioPlayer's effect calls [audio.play()] for a source that just became
    set and keeps the promise with a [catch] handler.  The effect runs again
    after later renders and calls [play()] on the same element; the promises
    of one element settle together and the handler only sets state, so one
    promise is kept for each source that starts. *)
Definition playStarted (u : string) (st : St) : St :=
  let '(w, c) := st in
  (play (Url u) w,
   mk (currentCar c) (isProcessing c) (error c) (shouldPlayGreeting c) (pending c)
      (S (playPending c))).

Definition greetingAutoPlay (old : option string) (st : St) : St :=
  match greetingSrc st with
  | Some u =>
      if JS.truthy_string u then
        match old with
        | Some u0 => if String.eqb u0 u then st else playStarted u st
        | None => playStarted u st
        end
      else st
  | None => st
  end.

(** handleNewCar, up to the await inside createSession. *)
Definition handleNewCar_entry (restaurant : option Z) (st : St) : St :=
  let '(w, c) := st in
  let rid := restaurant_or_1 restaurant in
  (SessionProvider.createSession_entry rid w,
   mk (currentCar c) true None (shouldPlayGreeting c) (CreateSession rid) (playPending c)).

(** handleNewCar, from the settlement of createNewSession on: createSession
    catches every error, so the lines after [await createSession(...)] run
    whatever the answer.  [car] is [Math.floor(Math.random() * 100) + 1]. *)
Definition handleNewCar_settled (rid : Z) (r : JS.settled Api.NewSession) (car : Z)
           (st : St) : St :=
  let '(w, c) := st in
  let old := greetingSrc st in
  greetingAutoPlay old
    (SessionProvider.createSession_settled rid r w,
     mk (Some car) false (error c) true Nothing (playPending c)).

(** handleCarArrived, up to the await inside clearSession. *)
Definition handleCarArrived_entry (st : St) : St :=
  let '(w, c) := st in
  match currentCar c with
  | Some car =>
      if JS.truthy_number car then
        (SessionProvider.clearSession_entry w,
         mk (currentCar c) true (error c) (shouldPlayGreeting c) ClearSession
            (playPending c))
      else st
  | None => st
  end.

(** handleCarArrived, from the settlement of clearCurrentSession on. *)
Definition handleCarArrived_settled (r : JS.settled Api.ClearSession) (st : St) : St :=
  let '(w, c) := st in
  (SessionProvider.clearSession_settled r w,
   mk None false (error c) false Nothing (playPending c)).

Definition handleAudioPlayStart (st : St) : St :=
  let '(w, c) := st in (setAISpeaking true w, c).

Definition handleAudioPlayEnd (st : St) : St :=
  let '(w, c) := st in
  (setAISpeaking false w,
   mk (currentCar c) (isProcessing c) (error c) false (pending c) (playPending c)).

Definition handleAudioError (message : string) (st : St) : St :=
  let '(w, c) := st in
  (setAISpeaking false w,
   mk (currentCar c) (isProcessing c) (Some ("Audio playback failed: " ++ message))
      false (pending c) (playPending c)).

(** AudioPlayer, [audio.play().catch(err => onError?.(err.message))]: the
    promise settles; a rejection calls handleAudioError, whether or not the
    element is still rendered (the cleanup of the effect removes the
    listeners of the element, not this handler). *)
Definition play_settled (r : JS.settled unit) (st : St) : St :=
  let '(w, c) := st in
  let st' := (w, mk (currentCar c) (isProcessing c) (error c) (shouldPlayGreeting c)
                    (pending c) (pred (playPending c))) in
  match r with
  | JS.Resolved _ => st'
  | JS.Rejected message => handleAudioError message st'
  end.

(** Both buttons carry [disabled={isProcessing || isAISpeaking}]. *)
Definition disabled (st : St) : bool :=
  let '(w, c) := st in isProcessing c || Speaker.isAISpeaking (speaker w).

Definition car_shown (c : t) : bool := JS.truthy JS.truthy_number (currentCar c).

(** A click on New Car, which is rendered when no car is current. *)
Definition clickNewCar (restaurant : option Z) (st : St) : St :=
  if car_shown (snd st) || disabled st then st else handleNewCar_entry restaurant st.

(** A click on Next Customer, which is rendered when a car is current. *)
Definition clickNextCustomer (st : St) : St :=
  if negb (car_shown (snd st)) || disabled st then st else handleCarArrived_entry st.

End CarControl.

(** ** The station: contexts, car controls and both microphone components *)

Record App := mkApp
  { world : World;
    car : CarControl.t;
    mic : FloatingMicrophone.t;
    icon : SpeakerIcon.t }.

Definition app0 : App := mkApp world0 CarControl.init FloatingMicrophone.init SpeakerIcon.init.

Definition on_car (f : CarControl.St -> CarControl.St) (a : App) : App :=
  let st := f (world a, car a) in mkApp (fst st) (snd st) (mic a) (icon a).
Definition on_mic (f : FloatingMicrophone.St -> FloatingMicrophone.St) (a : App) : App :=
  let st := f (world a, mic a) in mkApp (fst st) (car a) (snd st) (icon a).
Definition on_icon (f : SpeakerIcon.St -> SpeakerIcon.St) (a : App) : App :=
  let st := f (world a, icon a) in mkApp (fst st) (car a) (mic a) (snd st).

(** What the user, the platform and the backend can do to the station. *)
Inductive event : Type :=
(* car controls *)
| NewCarClick (restaurant : option Z)
| NewCarSettled (r : JS.settled Api.NewSession) (carNumber : Z)
| NextCustomerClick
| NextCustomerSettled (r : JS.settled Api.ClearSession)
| GreetingPlay
| GreetingEnded
| GreetingError (message : string)
| GreetingPlaySettled (r : JS.settled unit)
(* FloatingMicrophone *)
| MicPermission (granted : bool)
| MicClick
| MicStream (granted : bool)
| MicStop
| MicSettled (r : JS.settled Api.ProcessAudio)
| MicAudioPlay
| MicAudioEnded
| MicAudioPause
(* SpeakerIcon *)
| IconPermission (granted : bool)
| IconMouseDown (isDisabled : bool)
| IconMouseUp
| IconMouseLeave
| IconStream (granted : bool)
| IconStop
| IconSettled (r : JS.settled Api.ProcessAudio)
| IconCanned (o : playback)
| IconTimeout
| IconAudio (o : playback).

(** The greeting AudioPlayer is mounted, with its listeners, while it has a
    source. *)
Definition greeting_mounted (a : App) : bool :=
  JS.truthy JS.truthy_string (CarControl.greetingSrc (world a, car a)).

(** The [<audio>] element of FloatingMicrophone is rendered while the
    component renders and [audioUrl] is set. *)
Definition mic_audio_mounted (a : App) : bool :=
  JS.truthy JS.truthy_string (FloatingMicrophone.audioSrc (world a, mic a)).

(** FloatingMicrophone renders again after an event that changed the session
    or its permission state: when that brings the [<audio>] element back, the
    element is new and plays its source. *)
Definition mic_rerender (before after : App) : App :=
  mkApp (FloatingMicrophone.autoPlay
           (FloatingMicrophone.audioSrc (world before, mic before))
           (FloatingMicrophone.audioSrc (world after, mic after))
           (world after))
        (car after) (mic after) (icon after).

(** SpeakerIcon renders its handlers unless [hasPermission === false]. *)
Definition icon_active (a : App) : bool :=
  negb (is_false (SpeakerIcon.hasPermission (icon a))).

(** One event, delivered to the handler the source registers for it; an
    event nobody listens to changes nothing.  Queued continuations are
    delivered oldest first.  The element events of a player (play, ended,
    error, pause) reach its handlers only while the element is rendered; the
    settlement of a [play()] promise reaches its handler in any case. *)
Definition step (e : event) (a : App) : App :=
  match e with
  | NewCarClick restaurant => on_car (CarControl.clickNewCar restaurant) a
  | NewCarSettled r n =>
      match CarControl.pending (car a) with
      | CarControl.CreateSession rid =>
          if (1 <=? n)%Z && (n <=? 100)%Z
          then mic_rerender a (on_car (CarControl.handleNewCar_settled rid r n) a) else a
      | _ => a
      end
  | NextCustomerClick => on_car CarControl.clickNextCustomer a
  | NextCustomerSettled r =>
      match CarControl.pending (car a) with
      | CarControl.ClearSession =>
          mic_rerender a (on_car (CarControl.handleCarArrived_settled r) a)
      | _ => a
      end
  | GreetingPlay =>
      if greeting_mounted a then on_car CarControl.handleAudioPlayStart a else a
  | GreetingEnded =>
      if greeting_mounted a then on_car CarControl.handleAudioPlayEnd a else a
  | GreetingError m =>
      if greeting_mounted a then on_car (CarControl.handleAudioError m) a else a
  | GreetingPlaySettled r =>
      match CarControl.playPending (car a) with
      | S _ => on_car (CarControl.play_settled r) a
      | O => a
      end
  | MicPermission g =>
      mic_rerender a (on_mic (FloatingMicrophone.checkMicrophonePermission g) a)
  | MicClick => on_mic FloatingMicrophone.onClick a
  | MicStream g =>
      match FloatingMicrophone.mediaPending (mic a) with
      | k :: q =>
          mic_rerender a
            (on_mic (fun st =>
                       let '(w, c) := st in
                       let st' := (w, FloatingMicrophone.setQueues q
                                        (FloatingMicrophone.stopQueued c)
                                        (FloatingMicrophone.inflight c) c) in
                       if g then FloatingMicrophone.startRecording_granted k st'
                       else FloatingMicrophone.startRecording_denied st') a)
      | [] => a
      end
  | MicStop =>
      match FloatingMicrophone.stopQueued (mic a) with
      | k :: q =>
          on_mic (fun st =>
                    let '(w, c) := st in
                    FloatingMicrophone.onstop_entry k
                      (w, FloatingMicrophone.setQueues
                            (FloatingMicrophone.mediaPending c) q
                            (FloatingMicrophone.inflight c) c)) a
      | [] => a
      end
  | MicSettled r =>
      match FloatingMicrophone.inflight (mic a) with
      | k :: q =>
          on_mic (fun st =>
                    let '(w, c) := st in
                    FloatingMicrophone.onstop_settled r
                      (w, FloatingMicrophone.setQueues
                            (FloatingMicrophone.mediaPending c)
                            (FloatingMicrophone.stopQueued c) q c)) a
      | [] => a
      end
  | MicAudioPlay => if mic_audio_mounted a then on_mic FloatingMicrophone.onPlay a else a
  | MicAudioEnded => if mic_audio_mounted a then on_mic FloatingMicrophone.onEnded a else a
  | MicAudioPause => if mic_audio_mounted a then on_mic FloatingMicrophone.onPause a else a
  | IconPermission g => on_icon (SpeakerIcon.checkMicrophonePermission g) a
  | IconMouseDown d =>
      if icon_active a then on_icon (SpeakerIcon.handleMouseDown d) a else a
  | IconMouseUp => if icon_active a then on_icon SpeakerIcon.handleMouseUp a else a
  | IconMouseLeave => if icon_active a then on_icon SpeakerIcon.handleMouseLeave a else a
  | IconStream g =>
      match SpeakerIcon.mediaPending (icon a) with
      | k :: q =>
          on_icon (fun st =>
                     let '(w, c) := st in
                     let st' := (w, SpeakerIcon.setQueues q (SpeakerIcon.stopQueued c)
                                      (SpeakerIcon.inflight c) c) in
                     if g then SpeakerIcon.startRecording_granted k st'
                     else SpeakerIcon.startRecording_denied st') a
      | [] => a
      end
  | IconStop =>
      match SpeakerIcon.stopQueued (icon a) with
      | k :: q =>
          on_icon (fun st =>
                     let '(w, c) := st in
                     SpeakerIcon.onstop k
                       (w, SpeakerIcon.setQueues (SpeakerIcon.mediaPending c) q
                             (SpeakerIcon.inflight c) c)) a
      | [] => a
      end
  | IconSettled r =>
      match SpeakerIcon.inflight (icon a) with
      | k :: q =>
          on_icon (fun st =>
                     let '(w, c) := st in
                     SpeakerIcon.processRecording_settled k r
                       (w, SpeakerIcon.setQueues (SpeakerIcon.mediaPending c)
                             (SpeakerIcon.stopQueued c) q c)) a
      | [] => a
      end
  | IconCanned o =>
      match SpeakerIcon.cannedPending (icon a), playCannedPhrase o with
      | S _, Some r => on_icon (SpeakerIcon.processRecording_canned r) a
      | _, _ => a
      end
  | IconTimeout =>
      match SpeakerIcon.timeouts (icon a) with
      | S _ => on_icon SpeakerIcon.timeout a
      | O => a
      end
  | IconAudio o =>
      match SpeakerIcon.audios (icon a) with
      | S _ => on_icon (SpeakerIcon.audio_done o) a
      | O => a
      end
  end.

(** The events of a list, in order. *)
Fixpoint run (es : list event) (a : App) : App :=
  match es with
  | [] => a
  | e :: es' => run es' (step e a)
  end.

Definition reachable (a : App) : Prop := exists es, run es app0 = a.

Definition ai_speaking (a : App) : bool := Speaker.isAISpeaking (speaker (world a)).
Definition user_speaking (a : App) : bool := Speaker.isUserSpeaking (speaker (world a)).

(** ** Vocabulary of the statements *)

(** SpeakerState as the specification names it: the contexts hold flags; a
    SpeakerState is read off when at most one of them is up. *)
Inductive SpeakerState : Type := Idle | CustomerSpeaking | Processing | AISpeaking.

Definition state_of (user processing ai : bool) : option SpeakerState :=
  match user, processing, ai with
  | false, false, false => Some Idle
  | true, false, false => Some CustomerSpeaking
  | false, true, false => Some Processing
  | false, false, true => Some AISpeaking
  | _, _, _ => None
  end.

(** SpeakerIcon keeps the processing flag in its own state, FloatingMicrophone
    in the SpeakerContext. *)
Definition icon_state (st : SpeakerIcon.St) : option SpeakerState :=
  state_of (Speaker.isUserSpeaking (speaker (fst st)))
           (SpeakerIcon.isProcessing (snd st))
           (Speaker.isAISpeaking (speaker (fst st))).

Definition mic_state (st : FloatingMicrophone.St) : option SpeakerState :=
  state_of (Speaker.isUserSpeaking (speaker (fst st)))
           (Speaker.isAPIProcessing (speaker (fst st)))
           (Speaker.isAISpeaking (speaker (fst st))).

(** No recording is in progress: [mediaRecorderRef.current && isRecording]
    is false. *)
Definition not_recording (ref : option MediaRecorder) (isRecording : bool) : Prop :=
  ref = None \/ isRecording = false.

(** The entry guards of the capture path look at these flags. *)
Definition icon_busy (st : SpeakerIcon.St) : bool :=
  Speaker.isAISpeaking (speaker (fst st)) || SpeakerIcon.isProcessing (snd st).

Definition mic_busy (st : FloatingMicrophone.St) : bool :=
  Speaker.isAISpeaking (speaker (fst st)) || Speaker.isAPIProcessing (speaker (fst st)).

(** What clearSession stores in [error], by the answer of the backend. *)
Definition clear_error (r : JS.settled Api.ClearSession) : option string :=
  match r with
  | JS.Resolved response =>
      if Api.cs_success response then None else Some "Failed to clear session"
  | JS.Rejected message => Some message
  end.

(** The backend confirmed the clear request. *)
Definition clear_confirmed (r : JS.settled Api.ClearSession) : bool :=
  match r with
  | JS.Resolved response => Api.cs_success response
  | JS.Rejected _ => false
  end.

(** What the claim on idempotence calls the observable state. *)
Definition observable (w : World)
  : option string * option Z * option string * Speaker.t * option string :=
  (Session.sessionId (session w), Session.restaurantId (session w),
   Session.greetingAudioUrl (session w), speaker w, Session.error (session w)).

(** The AI flag after a settled request, from the flag before it. *)
Definition ai_after (r : JS.settled Api.ProcessAudio) (old : bool) : bool :=
  match r with
  | JS.Resolved response =>
      if Api.success response then JS.truthy JS.truthy_string (Api.audio_url response)
      else old
  | JS.Rejected _ => old
  end.

(** The order refreshes a settled request signals. *)
Definition refreshes (r : JS.settled Api.ProcessAudio) : nat :=
  match r with
  | JS.Resolved response =>
      if Api.success response && Api.order_state_changed response then 1 else 0
  | JS.Rejected _ => 0
  end.

(** The completion signal of a playback is the call [setAISpeaking(false)]:
    the number of such calls logged from position [n] of the log on. *)
Definition completions_since (n : nat) (w : World) : nat :=
  count_occ bool_dec (skipn n (aiLog w)) false.

(** The request was rejected (network error, timeout, error status) or the
    backend answered without success. *)
Definition request_failed (r : JS.settled Api.ProcessAudio) : bool :=
  match r with
  | JS.Resolved response => negb (Api.success response)
  | JS.Rejected _ => true
  end.

(** Mutual exclusion of the customer and the AI in a state of the station. *)
Definition exclusive (a : App) : bool := Speaker.exclusive (speaker (world a)).

(** The events whose handler raises the AI flag: the greeting or the response
    audio starts to play, a successful answer carries an audio_url, the
    canned phrase has ended. *)
Definition raises_ai_flag (e : event) : bool :=
  match e with
  | GreetingPlay | MicAudioPlay => true
  | MicSettled r | IconSettled r => ai_after r false
  | IconCanned ended => true
  | _ => false
  end.

(** The events that resume startRecording after its await: the input stream
    was granted. *)
Definition resumes_capture (e : event) : bool :=
  match e with
  | MicStream true | IconStream true => true
  | _ => false
  end.

(** ** Scenarios: answers of the backend and sequences of events *)

Definition session_created (sid greeting : string) : JS.settled Api.NewSession :=
  JS.Resolved (Api.mkNewSession true sid (Some greeting)).

Definition session_cleared : JS.settled Api.ClearSession :=
  JS.Resolved (Api.mkClearSession true).

Definition network_error {A} : JS.settled A :=
  JS.Rejected "Network error: Unable to reach the server".

Definition reply (audio : option string) (changed : bool) : JS.settled Api.ProcessAudio :=
  JS.Resolved (Api.mkProcessAudio true audio "Anything else?" changed).

(** A car arrives, is greeted, and the greeting plays to its end. *)
Definition car_greeted (sid : string) (n : Z) : list event :=
  [ NewCarClick (Some 1%Z); NewCarSettled (session_created sid "greeting.mp3") n;
    GreetingPlay; GreetingEnded ].

(** A greeted customer presses and holds the button of SpeakerIcon ... *)
Definition first_press : list event :=
  IconPermission true :: car_greeted "s1" 7 ++ [ IconMouseDown false; IconStream true ].

(** ... and touches it again before releasing it. *)
Definition second_press : list event :=
  first_press ++ [ IconMouseDown false; IconStream true ].

(** A greeted customer clicks FloatingMicrophone twice in a row, before the
    first [getUserMedia] has answered; then both streams are granted. *)
Definition double_click : list event :=
  MicPermission true :: car_greeted "s1" 7
    ++ [ MicClick; MicClick; MicStream true; MicStream true ].

(** The customer of car 7 has started a recording with FloatingMicrophone;
    then the operator presses Next Customer and the backend confirms. *)
Definition recording_started : list event :=
  MicPermission true :: car_greeted "s1" 7 ++ [ MicClick; MicStream true ].

Definition next_customer_while_recording : list event :=
  recording_started ++ [ NextCustomerClick; NextCustomerSettled session_cleared ].

(** The same Next Customer press, answered by a network error. *)
Definition next_customer_fails : list event :=
  recording_started ++ [ NextCustomerClick; NextCustomerSettled network_error ].

(** New Car fails (no session is created, the error is displayed); the
    car number is set all the same, so Next Customer can be pressed. *)
Definition new_car_failed : list event :=
  [ NewCarClick (Some 1%Z); NewCarSettled network_error 7 ].

Definition next_customer_without_session : list event :=
  new_car_failed ++ [ NextCustomerClick; NextCustomerSettled session_cleared ].

(** New Car is pressed while the customer of the previous car, whose session
    was just ended, is still recording. *)
Definition new_car_while_recording : list event :=
  next_customer_while_recording
    ++ [ NewCarClick (Some 1%Z); NewCarSettled (session_created "s2" "greeting.mp3") 8 ].

(** A greeted customer speaks into SpeakerIcon and releases the button; the
    recorder stops and the utterance is submitted. *)
Definition icon_submitted : list event :=
  first_press ++ [ IconMouseUp; IconStop ].

(** The same with FloatingMicrophone: a second click stops the recording. *)
Definition mic_submitted : list event :=
  recording_started ++ [ MicClick; MicStop ].

Definition end_session : list event :=
  [ NextCustomerClick; NextCustomerSettled session_cleared ].

(** FloatingMicrophone handles the same successful answer: the refresh goes
    through the order component, not through the OrderRefreshToken. *)
Definition mic_scenario_B : list event :=
  mic_submitted ++ [ MicSettled (reply (Some "reply.mp3") true); MicAudioPlay; MicAudioEnded ].

(** The operator ends the session of a customer who is recording and calls
    the next car: its greeting starts to play over the recording. *)
Definition greeting_over_recording : list event :=
  new_car_while_recording ++ [ GreetingPlay ].

(** The customer presses SpeakerIcon again right after releasing it, before
    the stop event of the first recording is delivered; the answer to the
    first utterance arrives while the second is being recorded. *)
Definition answer_over_second_recording : list event :=
  first_press
    ++ [ IconMouseUp; IconMouseDown false; IconStream true; IconStop;
         IconSettled (reply (Some "reply.mp3") false) ].

(** ** Formatting: the recording timer and the URLs of lib/s3-utils.ts *)

(** [n.toString()] for a natural number and [`${z}`] for an integer, in
    the range where JavaScript prints a number in plain decimal notation. *)
Definition toString (n : nat) : string := NilEmpty.string_of_uint (Nat.to_uint n).
Definition numberToString (z : Z) : string := NilZero.string_of_int (Z.to_int z).

(** [s.padStart(target, c)] for a padding string of one character. *)
Definition padStart (target : nat) (c : ascii) (s : string) : string :=
  string_of_list_ascii (repeat c (target - String.length s)) ++ s.

(** The decimal digit [d] as a character. *)
Definition digit (d : nat) : ascii := ascii_of_nat (48 + d).

(** [secs.toString().padStart(2, '0')] *)
Definition secondsField (secs : nat) : string := padStart 2 "0" (toString secs).

(** formatTime of FloatingMicrophone and VoiceRecorder; SpeakerIcon renders
    the same two fields inline. *)
Definition formatTime (seconds : nat) : string :=
  let mins := seconds / 60 in
  let secs := seconds mod 60 in
  toString mins ++ ":" ++ secondsField secs.

(** The two variables of [process.env] that lib/s3-utils.ts reads. *)
Record Env := mkEnv
  { NEXT_PUBLIC_S3_BUCKET_URL : option string;
    NEXT_PUBLIC_RESTAURANT_ID : option string }.

(** [x || d] for an environment variable. *)
Definition or_default (x : option string) (d : string) : string :=
  match x with
  | Some s => if JS.truthy_string s then s else d
  | None => d
  end.

Definition s3BucketUrl (env : Env) : string :=
  or_default (NEXT_PUBLIC_S3_BUCKET_URL env)
             "https://ai-drivethru-files-5ddf24fb.s3.us-east-1.amazonaws.com".

(** [restaurantId || process.env.NEXT_PUBLIC_RESTAURANT_ID || '1'], as it is
    spliced into the template string. *)
Definition restaurantSegment (env : Env) (restaurantId : option Z) : string :=
  match restaurantId with
  | Some r =>
      if JS.truthy_number r then numberToString r
      else or_default (NEXT_PUBLIC_RESTAURANT_ID env) "1"
  | None => or_default (NEXT_PUBLIC_RESTAURANT_ID env) "1"
  end.

Definition getCannedPhraseUrl (env : Env) (phrase : string) (restaurantId : option Z) : string :=
  s3BucketUrl env ++ "/canned-phrases/restaurant-" ++ restaurantSegment env restaurantId
    ++ "/" ++ phrase ++ ".mp3".

Definition getImageUrl (env : Env) (imageUrl : string) (restaurantId : option Z) : string :=
  s3BucketUrl env ++ "/restaurants/" ++ restaurantSegment env restaurantId
    ++ "/images/" ++ imageUrl.

(** ** Invariants of the station *)

(** A recorder that holds its input stream and has not been told to stop. *)
Definition recorder_active (r : option MediaRecorder) : nat :=
  match r with
  | Some r => match rec_state r with recording => 1 | inactive => 0 end
  | None => 0
  end.

(** Every queued stop event and every recorder a component can still stop
    has an open input stream of its own. *)
Definition streams_accounted (a : App) : Prop :=
  length (FloatingMicrophone.stopQueued (mic a))
  + recorder_active (FloatingMicrophone.mediaRecorderRef (mic a))
  + length (SpeakerIcon.stopQueued (icon a))
  + recorder_active (SpeakerIcon.mediaRecorderRef (icon a))
  <= openStreams (world a).


(** The customer is reported speaking only while a component is recording. *)
Definition speaking_is_recording (a : App) : Prop :=
  user_speaking a = true ->
  FloatingMicrophone.isRecording (mic a) = true \/ SpeakerIcon.isRecording (icon a) = true.

(** The session id and the restaurant id are set together, the restaurant id
    is not 0, and a greeting is stored only with a session and never as an
    empty string. *)
Definition session_consistent (s : Session.t) : Prop :=
  match Session.sessionId s, Session.restaurantId s with
  | Some _, Some rid =>
      rid <> 0%Z
      /\ JS.or_null (Session.greetingAudioUrl s) = Session.greetingAudioUrl s
  | None, None => Session.greetingAudioUrl s = None
  | _, _ => False
  end.

Definition pending_restaurant_set (c : CarControl.t) : Prop :=
  match CarControl.pending c with
  | CarControl.CreateSession rid => rid <> 0%Z
  | _ => True
  end.

(** A processAudio request with a session id and a restaurant id that pass
    [!sessionId || !restaurantId]. *)
Definition live_call (c : Api.call) : bool :=
  match c with
  | Api.processAudio sid rid => JS.truthy JS.truthy_string sid && JS.truthy_number rid
  | _ => true
  end.

Definition recorder_live (r : option MediaRecorder) : bool :=
  match r with Some r => cap_live (rec_onstop r) | None => true end.

(** A canned phrase is come_again, asked for with a restaurant id that is
    set and not 0. *)
Definition canned_for_restaurant (s : AudioSrc) : bool :=
  match s with
  | Url _ => true
  | CannedPhraseUrl phrase rid =>
      String.eqb phrase "come_again" && JS.truthy JS.truthy_number rid
  end.

(** The closures FloatingMicrophone has queued, the requests SpeakerIcon has
    in flight, the requests sent and the phrases played all carry a live
    session. *)
Definition captures_live (a : App) : Prop :=
  forallb live_call (apiLog (world a)) = true
  /\ forallb cap_live (FloatingMicrophone.mediaPending (mic a)) = true
  /\ forallb cap_live (FloatingMicrophone.stopQueued (mic a)) = true
  /\ recorder_live (FloatingMicrophone.mediaRecorderRef (mic a)) = true
  /\ forallb cap_live (SpeakerIcon.inflight (icon a)) = true
  /\ forallb canned_for_restaurant (played (world a)) = true.

(** A request of the car controls awaits its answer. *)
Definition request_pending (c : CarControl.t) : bool :=
  match CarControl.pending c with CarControl.Nothing => false | _ => true end.

(** The processing flag of the car controls and the loading flag of the
    session provider are up exactly while a request of the car controls is
    pending. *)
Definition car_in_step (a : App) : Prop :=
  CarControl.isProcessing (car a) = request_pending (car a)
  /\ Session.isLoading (session (world a)) = request_pending (car a).

(** The error the car controls display comes from handleAudioError. *)
Definition playback_error_only (c : CarControl.t) : Prop :=
  match CarControl.error c with
  | None => True
  | Some m => exists detail, m = "Audio playback failed: " ++ detail
  end.

(** The order refreshes the answers delivered to SpeakerIcon ask for. *)
Definition order_changes (es : list event) : nat :=
  list_sum (map (fun e => match e with IconSettled r => refreshes r | _ => 0 end) es).

(** ** Proof automation *)

(** Case analysis on the innermost scrutinee of the goal. *)
Ltac case_step :=
  repeat match goal with
         | |- context [match ?x with _ => _ end] =>
             lazymatch x with
             | context [match _ with _ => _ end] => fail
             | _ => destruct x; simpl in *
             end
         end.

Ltac split_app a :=
  destruct a as [[[sid rid gr ld serr] [ai us pr] rt al ap mc os sc pl rc]
                   [cur cip cerr spg pend ppl]
                   [mrec mtime mperm murl mtext mref mtimer mord mmp msq mfl]
                   [imd irec iproc itime ierr iperm iref itimer imp isq ifl icp iau ito]].

(** Case analysis on the innermost scrutinee, keeping the equation. *)
Ltac case_eq_step :=
  repeat match goal with
         | |- context [match ?x with _ => _ end] =>
             lazymatch x with
             | context [match _ with _ => _ end] => fail
             | _ => destruct x eqn:?; simpl in *
             end
         end.

Ltac unfold_handlers :=
  unfold on_car, on_mic, on_icon, CarControl.clickNewCar, CarControl.clickNextCustomer,
    greeting_mounted, mic_audio_mounted, mic_rerender, icon_active, playCannedPhrase,
    CarControl.handleNewCar_settled, CarControl.handleNewCar_entry,
    CarControl.handleCarArrived_entry, CarControl.handleCarArrived_settled,
    CarControl.greetingAutoPlay, CarControl.playStarted, CarControl.greetingSrc,
    CarControl.play_settled,
    CarControl.handleAudioPlayStart, CarControl.handleAudioPlayEnd,
    CarControl.handleAudioError,
    FloatingMicrophone.onstop_settled, FloatingMicrophone.onstop_entry,
    FloatingMicrophone.autoPlay, FloatingMicrophone.audioSrc, FloatingMicrophone.rendered,
    FloatingMicrophone.onClick, FloatingMicrophone.stopRecording,
    FloatingMicrophone.startRecording_entry, FloatingMicrophone.startRecording_granted,
    FloatingMicrophone.startRecording_denied, FloatingMicrophone.blocked,
    FloatingMicrophone.checkMicrophonePermission,
    FloatingMicrophone.onPlay, FloatingMicrophone.onEnded, FloatingMicrophone.onPause,
    SpeakerIcon.onstop, SpeakerIcon.processRecording_entry, SpeakerIcon.stopRecording,
    SpeakerIcon.handleMouseUp, SpeakerIcon.handleMouseLeave, SpeakerIcon.handleMouseDown,
    SpeakerIcon.startRecording_entry, SpeakerIcon.startRecording_granted,
    SpeakerIcon.startRecording_denied, SpeakerIcon.checkMicrophonePermission,
    SpeakerIcon.processRecording_settled, SpeakerIcon.processRecording_catch,
    SpeakerIcon.processRecording_canned, SpeakerIcon.timeout, SpeakerIcon.audio_done,
    SessionProvider.createSession_settled, SessionProvider.createSession_entry,
    SessionProvider.clearSession_settled, SessionProvider.clearSession_entry,
    recorder_stop, cap_live in *.

Ltac bool_facts :=
  repeat match goal with
         | H : _ || _ = false |- _ => apply orb_false_iff in H; destruct H
         | H : _ && _ = true |- _ => apply andb_true_iff in H; destruct H
         | H : negb _ = false |- _ => apply negb_false_iff in H
         | H : _ /\ _ |- _ => destruct H
         end.

(** ** Basic facts *)

Lemma state_of_idle (u p a : bool) :
  state_of u p a = Some Idle <-> u = false /\ p = false /\ a = false.
Proof.
  destruct u, p, a; simpl; split; intros H;
    try discriminate; try (destruct H as (? & ? & ?); discriminate); auto.
Qed.

Lemma run_app (es1 es2 : list event) (a : App) :
  run (es1 ++ es2) a = run es2 (run es1 a).
Proof.
  revert a; induction es1 as [|e es1 IH]; intros a; simpl; [reflexivity | apply IH].
Qed.

Lemma reachable_step (e : event) (a : App) : reachable a -> reachable (step e a).
Proof.
  intros [es H]. exists (es ++ [e])%list. rewrite run_app, H. reflexivity.
Qed.

(** * Capture *)

(** C10.  stopRecording called when no recording is in progress (the
    recorder reference is null or the recording flag is false) is a no-op in
    SpeakerIcon, FloatingMicrophone and VoiceRecorder: the whole state is
    returned as it was, so [MediaRecorder.stop] is not called ([stopCalls]
    keeps its value) and the recording, speaker and timer state are
    unchanged. *)
Theorem stopRecording_noop_when_not_recording
        (si : SpeakerIcon.St) (sm : FloatingMicrophone.St) (sv : VoiceRecorder.St)
        (onRecordingStop : option (World -> World)) :
  not_recording (SpeakerIcon.mediaRecorderRef (snd si)) (SpeakerIcon.isRecording (snd si)) ->
  not_recording (FloatingMicrophone.mediaRecorderRef (snd sm))
                (FloatingMicrophone.isRecording (snd sm)) ->
  not_recording (VoiceRecorder.mediaRecorderRef (snd sv)) (VoiceRecorder.isRecording (snd sv)) ->
  SpeakerIcon.stopRecording si = si
  /\ FloatingMicrophone.stopRecording sm = sm
  /\ VoiceRecorder.stopRecording onRecordingStop sv = sv.
Proof.
  destruct si as [wi ci], sm as [wm cm], sv as [wv cv]; simpl.
  intros Hi Hm Hv. repeat split.
  - unfold SpeakerIcon.stopRecording.
    destruct Hi as [-> | ->]; [reflexivity |].
    destruct (SpeakerIcon.mediaRecorderRef ci); reflexivity.
  - unfold FloatingMicrophone.stopRecording.
    destruct Hm as [-> | ->]; [reflexivity |].
    destruct (FloatingMicrophone.mediaRecorderRef cm); reflexivity.
  - unfold VoiceRecorder.stopRecording.
    destruct Hv as [-> | ->]; [reflexivity |].
    destruct (VoiceRecorder.mediaRecorderRef cv); reflexivity.
Qed.

Lemma stopRecording_noop_witness :
  SpeakerIcon.stopRecording (world0, SpeakerIcon.init) = (world0, SpeakerIcon.init)
  /\ FloatingMicrophone.stopRecording (world0, FloatingMicrophone.init)
     = (world0, FloatingMicrophone.init)
  /\ VoiceRecorder.stopRecording (Some VoiceRecorder.handleRecordingStop)
       (world0, VoiceRecorder.mk false 0 (Some true)
                  (Some (mkRecorder inactive (capture world0))) false [])
     = (world0, VoiceRecorder.mk false 0 (Some true)
                  (Some (mkRecorder inactive (capture world0))) false []).
Proof.
  apply (stopRecording_noop_when_not_recording
           (world0, SpeakerIcon.init) (world0, FloatingMicrophone.init)
           (world0, VoiceRecorder.mk false 0 (Some true)
                      (Some (mkRecorder inactive (capture world0))) false [])
           (Some VoiceRecorder.handleRecordingStop)).
  - left; reflexivity.
  - left; reflexivity.
  - right; reflexivity.
Defined.

(** C7, as stated, fails: a second press while the first recording is still
    running (the customer is speaking) is not refused by SpeakerIcon; it
    requests and opens a second input stream.  A double click on
    FloatingMicrophone passes the guard twice and opens two streams as
    well. *)
Lemma second_press_opens_second_device :
  let before := run first_press app0 in
  let after := run second_press app0 in
  let twice := run double_click app0 in
  (user_speaking before = true
   /\ SpeakerIcon.isRecording (icon before) = true
   /\ mediaCalls (world before) = 1 /\ openStreams (world before) = 1
   /\ mediaCalls (world after) = 2 /\ openStreams (world after) = 2)
  /\ (mediaCalls (world twice) = 2 /\ openStreams (world twice) = 2).
Proof. vm_compute. repeat split. Qed.

(** C7, amended.  A call to begin made while the AI is speaking or while
    the pipeline is processing does nothing: handleMouseDown of SpeakerIcon,
    and startRecording and the button of FloatingMicrophone, return the state
    unchanged, so no audio input device is requested.  (An ongoing recording
    is not among the guards.) *)
Theorem begin_refused_when_busy
        (isDisabled : bool) (si : SpeakerIcon.St) (sm : FloatingMicrophone.St) :
  icon_busy si = true ->
  mic_busy sm = true ->
  SpeakerIcon.handleMouseDown isDisabled si = si
  /\ FloatingMicrophone.startRecording_entry sm = sm
  /\ FloatingMicrophone.onClick sm = sm.
Proof.
  destruct si as [wi ci], sm as [wm cm]. unfold icon_busy, mic_busy; simpl.
  intros Hi Hm.
  assert (Hb : FloatingMicrophone.blocked (wm, cm) = true).
  { unfold FloatingMicrophone.blocked.
    apply orb_true_iff in Hm. destruct Hm as [-> | ->];
      rewrite ?orb_true_r; reflexivity. }
  unfold FloatingMicrophone.blocked in Hb.
  repeat split.
  - unfold SpeakerIcon.handleMouseDown.
    destruct isDisabled; [reflexivity |].
    destruct (SpeakerIcon.isProcessing ci); [reflexivity |].
    rewrite orb_false_r in Hi. rewrite Hi.
    destruct (negb (is_true (SpeakerIcon.hasPermission ci))); reflexivity.
  - unfold FloatingMicrophone.startRecording_entry. rewrite Hb. reflexivity.
  - unfold FloatingMicrophone.onClick. rewrite Hb. reflexivity.
Qed.

Lemma begin_refused_witness :
  let w := setAISpeaking true world0 in
  SpeakerIcon.handleMouseDown false (w, SpeakerIcon.setHasPermission (Some true) SpeakerIcon.init)
  = (w, SpeakerIcon.setHasPermission (Some true) SpeakerIcon.init)
  /\ FloatingMicrophone.startRecording_entry (w, FloatingMicrophone.init)
     = (w, FloatingMicrophone.init)
  /\ FloatingMicrophone.onClick (w, FloatingMicrophone.init) = (w, FloatingMicrophone.init).
Proof.
  apply (begin_refused_when_busy false
           (setAISpeaking true world0, SpeakerIcon.setHasPermission (Some true) SpeakerIcon.init)
           (setAISpeaking true world0, FloatingMicrophone.init)); reflexivity.
Defined.

(** * Session lifecycle *)

Lemma clearSession_session (r : JS.settled Api.ClearSession) (w : World) :
  session (SessionProvider.clearSession r w)
  = if clear_confirmed r
    then Session.mk None None None false None
    else Session.mk (Session.sessionId (session w)) (Session.restaurantId (session w))
                    (Session.greetingAudioUrl (session w)) false (clear_error r).
Proof.
  destruct r as [[[|]] | m]; reflexivity.
Qed.

Lemma clearSession_frame (r : JS.settled Api.ClearSession) (w : World) :
  let w' := SessionProvider.clearSession r w in
  speaker w' = speaker w /\ refreshTrigger w' = refreshTrigger w /\ aiLog w' = aiLog w
  /\ played w' = played w /\ openStreams w' = openStreams w
  /\ apiLog w' = (apiLog w ++ [Api.clearCurrentSession])%list.
Proof. destruct r as [[[|]] | m]; repeat split. Qed.

(** Next Customer, from the click to the answer of the backend, is one call
    of clearSession on the shared state. *)
Lemma handleCarArrived_clearSession (r : JS.settled Api.ClearSession) (st : CarControl.St) :
  CarControl.car_shown (snd st) = true ->
  fst (CarControl.handleCarArrived_settled r (CarControl.handleCarArrived_entry st))
  = SessionProvider.clearSession r (fst st).
Proof.
  destruct st as [w c]. unfold CarControl.car_shown, CarControl.handleCarArrived_entry; simpl.
  destruct (CarControl.currentCar c) as [n|]; simpl; [| discriminate].
  intros ->. reflexivity.
Qed.

(** C3, as stated, fails: after endSession has completed, the recording goes
    on and the customer is still reported speaking, with the input stream
    open; and when the request fails the session stays live. *)
Lemma endSession_leaves_customer_speaking :
  let a := run next_customer_while_recording app0 in
  let b := run next_customer_fails app0 in
  Session.cleared (session (world a)) = true
  /\ Speaker.idle (speaker (world a)) = false
  /\ user_speaking a = true
  /\ FloatingMicrophone.isRecording (mic a) = true
  /\ openStreams (world a) = 1
  /\ Session.sessionId (session (world b)) = Some "s1"
  /\ Session.live (session (world b)) = true.
Proof. repeat split. Qed.

(** C3, amended.  endSession sends the clear request to the backend first
    and never writes SpeakerState, whatever it is: the flags are after the
    call what they were before it.  It stops no recording: no
    [MediaRecorder.stop] is called, the input streams stay open and the
    microphone components keep their state.  It gives no completion signal
    and starts no playback; but players are taken off the page: Next
    Customer switches the greeting player off, which cuts a greeting that
    is still loading or playing, and the answer audio of FloatingMicrophone
    goes when the session is cleared while the permission is denied.  When
    the backend confirms, no live Session (session id, restaurant id,
    greeting payload) remains and the error is reset; otherwise the Session
    is kept and the failure is stored in the error state. *)
Theorem clearSession_effect (r : JS.settled Api.ClearSession) (w : World) (a : App) :
  CarControl.pending (car a) = CarControl.ClearSession ->
  let w' := SessionProvider.clearSession r w in
  let a' := step (NextCustomerSettled r) a in
  (speaker w' = speaker w
   /\ openStreams w' = openStreams w
   /\ stopCalls w' = stopCalls w
   /\ aiLog w' = aiLog w
   /\ played w' = played w
   /\ apiLog w' = (apiLog w ++ [Api.clearCurrentSession])%list
   /\ Session.isLoading (session w') = false
   /\ Session.error (session w') = clear_error r
   /\ (if clear_confirmed r
       then Session.cleared (session w') = true
       else Session.sessionId (session w') = Session.sessionId (session w)
            /\ Session.restaurantId (session w') = Session.restaurantId (session w)
            /\ Session.greetingAudioUrl (session w') = Session.greetingAudioUrl (session w)))
  /\ (world a' = SessionProvider.clearSession_settled r (world a)
      /\ mic a' = mic a
      /\ icon a' = icon a
      /\ greeting_mounted a' = false
      /\ mic_audio_mounted a'
         = mic_audio_mounted a
           && negb (clear_confirmed r
                    && is_false (FloatingMicrophone.hasPermission (mic a)))).
Proof.
  intros Hp. split.
  - destruct r as [[[|]] | m]; repeat split.
  - cbv zeta. unfold step. rewrite Hp.
    destruct a as [[[sid rid gr ld serr] sp rt al ap mc os sc pl rc] cc
                     [mrec mtime mperm murl mtext mref mtimer mord mmp msq mfl] ci].
    unfold mic_rerender, on_car, greeting_mounted, mic_audio_mounted,
      CarControl.handleCarArrived_settled, CarControl.greetingSrc,
      SessionProvider.clearSession_settled, FloatingMicrophone.audioSrc,
      FloatingMicrophone.rendered, FloatingMicrophone.autoPlay, JS.or_null; simpl.
    destruct mperm as [[|]|], murl as [[|ch u]|], sid as [[|ch' sid]|], r as [[[|]] | m];
      simpl; rewrite ?String.eqb_refl, ?Ascii.eqb_refl; simpl; repeat split.
Qed.

Lemma clearSession_effect_witness :
  let a := run (recording_started ++ [ NextCustomerClick ]) app0 in
  let a' := step (NextCustomerSettled session_cleared) a in
  CarControl.pending (car a) = CarControl.ClearSession
  /\ world a' = SessionProvider.clearSession_settled session_cleared (world a)
  /\ mic a' = mic a
  /\ greeting_mounted a' = false.
Proof.
  cbv zeta.
  assert (H : CarControl.pending (car (run (recording_started ++ [ NextCustomerClick ]) app0))
              = CarControl.ClearSession) by (vm_compute; reflexivity).
  split; [exact H |].
  pose proof (clearSession_effect session_cleared world0
                (run (recording_started ++ [ NextCustomerClick ]) app0) H) as T.
  cbv zeta in T. destruct T as [_ (Hw & Hm & _ & Hg & _)].
  split; [exact Hw |]. split; [exact Hm | exact Hg].
Defined.

(** C9, as stated, fails: endSession called with no live session is not a
    no-op on the observable state: it sends a request to the backend and it
    overwrites the error state. *)
Lemma clearSession_without_session_not_noop :
  let before := run new_car_failed app0 in
  let after := run next_customer_without_session app0 in
  Session.cleared (session (world before)) = true
  /\ Session.error (session (world before))
     = Some "Network error: Unable to reach the server"
  /\ Session.error (session (world after)) = None
  /\ observable (world after) <> observable (world before)
  /\ apiLog (world after) = (apiLog (world before) ++ [Api.clearCurrentSession])%list.
Proof. repeat split. discriminate. Qed.

(** C9, amended.  Two calls of endSession in a row whose requests get the
    same answer leave the same observable state (live session fields,
    SpeakerState, error state) as one call.  A call never changes
    SpeakerState, and with no live session it keeps the session fields
    cleared; but it always notifies the backend and sets the error state by
    the answer, so it is not a no-op. *)
Theorem clearSession_idempotent_same_answer (r : JS.settled Api.ClearSession) (w : World) :
  let w' := SessionProvider.clearSession r w in
  observable (SessionProvider.clearSession r w') = observable w'
  /\ speaker w' = speaker w
  /\ Session.cleared (session w') = clear_confirmed r || Session.cleared (session w)
  /\ Session.error (session w') = clear_error r
  /\ apiLog w' = (apiLog w ++ [Api.clearCurrentSession])%list.
Proof.
  intros w'. subst w'.
  destruct (clearSession_frame r w) as (Hs & _ & _ & _ & _ & Ha).
  repeat split; try assumption.
  - unfold observable. rewrite !clearSession_session.
    destruct (clearSession_frame r (SessionProvider.clearSession r w)) as (-> & _).
    destruct (clear_confirmed r); reflexivity.
  - rewrite clearSession_session. destruct (clear_confirmed r); reflexivity.
  - destruct r as [[[|]] | m]; reflexivity.
Qed.

(** C8, as stated, fails: in a state in which the customer is speaking, the
    New Car action creates a session. *)
Lemma new_car_while_customer_speaking :
  let before := run next_customer_while_recording app0 in
  let after := run new_car_while_recording app0 in
  user_speaking before = true
  /\ Session.sessionId (session (world before)) = None
  /\ user_speaking after = true
  /\ Session.sessionId (session (world after)) = Some "s2"
  /\ Session.live (session (world after)) = true.
Proof. repeat split. Qed.

(** C8, amended.  startSession itself does not look at SpeakerState: the
    session it stores is the same whatever the speaker flags are.  The only
    guard is on the New Car button, which is disabled while the AI is
    speaking and while a request of the car controls is in flight: in every
    such state the New Car action changes nothing, so no request is sent and
    no session is created. *)
Theorem new_car_refused_while_ai_speaking
        (restaurant : option Z) (st : CarControl.St)
        (rid : Z) (r : JS.settled Api.NewSession) (f : Speaker.t -> Speaker.t) :
  Speaker.isAISpeaking (speaker (fst st)) = true \/ CarControl.isProcessing (snd st) = true ->
  CarControl.clickNewCar restaurant st = st
  /\ session (SessionProvider.createSession rid r (upd_speaker f (fst st)))
     = session (SessionProvider.createSession rid r (fst st)).
Proof.
  destruct st as [w c]; simpl. intros Hbusy. split.
  - unfold CarControl.clickNewCar, CarControl.disabled; simpl.
    destruct Hbusy as [-> | ->]; rewrite ?orb_true_r; reflexivity.
  - destruct r as [[[|] sid g] | m]; reflexivity.
Qed.

Lemma new_car_refused_witness :
  let st := (setAISpeaking true world0, CarControl.init) in
  CarControl.clickNewCar (Some 1%Z) st = st
  /\ session (SessionProvider.createSession 1 (session_created "s1" "greeting.mp3")
                (upd_speaker (Speaker.setUserSpeaking true) (fst st)))
     = session (SessionProvider.createSession 1 (session_created "s1" "greeting.mp3") (fst st)).
Proof.
  apply (new_car_refused_while_ai_speaking (Some 1%Z)
           (setAISpeaking true world0, CarControl.init) 1
           (session_created "s1" "greeting.mp3") (Speaker.setUserSpeaking true)).
  left; reflexivity.
Defined.

(** * The pipeline of one utterance *)

(** C1 on the code.  The utterance is submitted and the pipeline is
    processing.  The Next Customer button is enabled all the same: its
    [disabled] attribute looks at the car controls' own flag and at
    isAISpeaking only.  So endSession runs between the submission and the
    answer, and the session is cleared.  When the answer arrives, neither
    callback compares session ids: SpeakerIcon increments the
    OrderRefreshToken, FloatingMicrophone calls refreshOrder, and both raise
    the AI flag and start the playback for a customer who has left. *)
Theorem stale_callback_not_suppressed :
  let answer := reply (Some "reply.mp3") true in
  let submitted := run icon_submitted app0 in
  let before := run end_session submitted in
  let after := step (IconSettled answer) before in
  let submitted' := run mic_submitted app0 in
  let before' := run end_session submitted' in
  let after' := step (MicSettled answer) before' in
  (icon_state (world submitted, icon submitted) = Some Processing
   /\ CarControl.disabled (world submitted, car submitted) = false
   /\ Session.cleared (session (world before)) = true
   /\ Speaker.idle (speaker (world before)) = true
   /\ refreshTrigger (world before) = 0
   /\ refreshTrigger (world after) = 1
   /\ ai_speaking after = true
   /\ played (world after) = (played (world before) ++ [Url "reply.mp3"])%list)
  /\ (mic_state (world submitted', mic submitted') = Some Processing
      /\ CarControl.disabled (world submitted', car submitted') = false
      /\ Session.cleared (session (world before')) = true
      /\ ai_speaking before' = false
      /\ refreshOrderCalls (world before') = 0
      /\ ai_speaking after' = true
      /\ refreshOrderCalls (world after') = 1
      /\ played (world after') = (played (world before') ++ [Url "reply.mp3"])%list).
Proof. vm_compute. repeat split. Qed.

Lemma audio_done_log (o : playback) (st : SpeakerIcon.St) :
  aiLog (fst (SpeakerIcon.audio_done o st))
  = (aiLog (fst st) ++ match o with ended => [false] | _ => [] end)%list.
Proof.
  destruct st as [w c], o; simpl; rewrite ?app_nil_r; reflexivity.
Qed.

(** C4 on the code.  SpeakerIcon answers a successful response by playing
    its audio_url and registers [onended] only.  With a malformed URL the
    playback fails at once: no handler runs, the completion signal is given
    zero times and the AI flag stays up with no playback left to lower it; a
    stopped playback does the same.  Only the natural end signals
    completion, once. *)
Theorem response_audio_error_never_completes :
  let started := run (icon_submitted ++ [ IconSettled (reply (Some "not-a-url") false) ]) app0 in
  let n := length (aiLog (world started)) in
  let on_error := step (IconAudio failed) started in
  let on_stop := step (IconAudio paused) started in
  let on_end := step (IconAudio ended) started in
  (ai_speaking started = true /\ SpeakerIcon.audios (icon started) = 1)
  /\ (completions_since n (world on_error) = 0
      /\ ai_speaking on_error = true /\ SpeakerIcon.audios (icon on_error) = 0)
  /\ (completions_since n (world on_stop) = 0 /\ ai_speaking on_stop = true)
  /\ (completions_since n (world on_end) = 1 /\ ai_speaking on_end = false).
Proof. vm_compute. repeat split. Qed.

(** The sibling paths do signal completion on an error: the greeting player
    of the car controls lowers the AI flag in handleAudioError, and
    playCannedPhrase settles its promise on [onerror]. *)
Lemma sibling_paths_complete_on_error (message : string) (st : CarControl.St) :
  Speaker.isAISpeaking (speaker (fst (CarControl.handleAudioError message st))) = false
  /\ playCannedPhrase failed <> None.
Proof. destruct st as [w c]. split; [reflexivity | discriminate]. Qed.

(** C5 on the code.  The request of FloatingMicrophone fails with a network
    error: no order refresh is signalled and the speaker flags end down,
    but nothing is played, neither a canned phrase nor anything else.
    SpeakerIcon, on the same failure, plays the canned phrase come_again,
    raises the AI flag when it has ended and lowers it three seconds
    later. *)
Theorem FloatingMicrophone_failure_is_silent :
  let submitted := run mic_submitted app0 in
  let failed_mic := step (MicSettled network_error) submitted in
  let submitted' := run icon_submitted app0 in
  let failed_icon := step (IconSettled network_error) submitted' in
  let phrase_over := step (IconCanned ended) failed_icon in
  let finished := step IconTimeout phrase_over in
  (mic_state (world submitted, mic submitted) = Some Processing
   /\ played (world failed_mic) = played (world submitted)
   /\ refreshTrigger (world failed_mic) = 0
   /\ refreshOrderCalls (world failed_mic) = 0
   /\ mic_state (world failed_mic, mic failed_mic) = Some Idle)
  /\ (played (world failed_icon)
      = (played (world submitted') ++ [CannedPhraseUrl "come_again" (Some 1%Z)])%list
      /\ icon_state (world failed_icon, icon failed_icon) = Some Processing
      /\ icon_state (world phrase_over, icon phrase_over) = Some AISpeaking
      /\ icon_state (world finished, icon finished) = Some Idle
      /\ refreshTrigger (world finished) = 0).
Proof. vm_compute. repeat split. Qed.

(** On every failure, whatever the state, FloatingMicrophone plays nothing,
    signals no refresh and lowers the processing flag. *)
Lemma FloatingMicrophone_failure_plays_nothing
      (r : JS.settled Api.ProcessAudio) (st : FloatingMicrophone.St) :
  request_failed r = true ->
  let st' := FloatingMicrophone.onstop_settled r st in
  played (fst st') = played (fst st)
  /\ refreshTrigger (fst st') = refreshTrigger (fst st)
  /\ refreshOrderCalls (fst st') = refreshOrderCalls (fst st)
  /\ Speaker.isAISpeaking (speaker (fst st')) = Speaker.isAISpeaking (speaker (fst st))
  /\ Speaker.isAPIProcessing (speaker (fst st')) = false.
Proof.
  destruct st as [w c].
  destruct r as [[[|] url text changed] | m]; simpl; intros H;
    try discriminate; repeat split.
Qed.

(** On every failure SpeakerIcon signals no refresh, stores the message for
    the screen and starts the canned phrase. *)
Lemma SpeakerIcon_failure_plays_come_again
      (k : Capture) (r : JS.settled Api.ProcessAudio) (st : SpeakerIcon.St) :
  request_failed r = true ->
  let st' := SpeakerIcon.processRecording_settled k r st in
  played (fst st')
  = (played (fst st) ++ [CannedPhraseUrl "come_again" (cap_restaurantId k)])%list
  /\ refreshTrigger (fst st') = refreshTrigger (fst st)
  /\ SpeakerIcon.error (snd st') <> None.
Proof.
  destruct st as [w c].
  destruct r as [[[|] url text changed] | m]; simpl; intros H;
    try discriminate; repeat split; discriminate.
Qed.

(** C6, as stated, fails for the responses FloatingMicrophone handles: the
    state sequence is as claimed but the OrderRefreshToken is not
    incremented. *)
Lemma FloatingMicrophone_success_keeps_token :
  let a := run mic_scenario_B app0 in
  refreshTrigger (world (run mic_submitted app0)) = 0
  /\ refreshTrigger (world a) = 0
  /\ refreshOrderCalls (world a) = 1
  /\ mic_state (world a, mic a) = Some Idle.
Proof. vm_compute. repeat split. Qed.

(** C6, amended.  A successful response with audio_url set and
    order_changed=true, for a request made with a live session:
    - in SpeakerIcon, SpeakerState passes Idle, Processing, AISpeaking, Idle
      (release of the button, submission, answer, end of the playback) and
      the OrderRefreshToken is incremented exactly once, by one;
    - in FloatingMicrophone, when the component is rendered and the
      audio_url is not the one it already holds, the audio element gets the
      new source and plays it, and when that playback has run to its end
      SpeakerState has passed CustomerSpeaking, Processing, AISpeaking,
      Idle; the OrderRefreshToken keeps its value and the refresh is
      signalled exactly once through refreshOrder of the order component,
      when that is mounted. *)
Theorem scenario_B
        (k : Capture) (response : Api.ProcessAudio) (u : string)
        (si : SpeakerIcon.St) (sm : FloatingMicrophone.St) :
  cap_live k = true ->
  Api.success response = true ->
  Api.audio_url response = Some u ->
  JS.truthy_string u = true ->
  Api.order_state_changed response = true ->
  icon_state si = Some Idle ->
  mic_state sm = Some CustomerSpeaking ->
  FloatingMicrophone.rendered sm = true ->
  FloatingMicrophone.audioUrl (snd sm) <> Some u ->
  let si1 := SpeakerIcon.onstop k si in
  let si2 := SpeakerIcon.processRecording_settled k (JS.Resolved response) si1 in
  let si3 := SpeakerIcon.audio_done ended si2 in
  let sm1 := FloatingMicrophone.onstop_entry k sm in
  let sm2 := FloatingMicrophone.onstop_settled (JS.Resolved response) sm1 in
  let sm3 := FloatingMicrophone.onEnded (FloatingMicrophone.onPlay sm2) in
  (map icon_state [si; si1; si2; si3]
   = [Some Idle; Some Processing; Some AISpeaking; Some Idle]
   /\ refreshTrigger (fst si1) = refreshTrigger (fst si)
   /\ refreshTrigger (fst si2) = S (refreshTrigger (fst si))
   /\ refreshTrigger (fst si3) = S (refreshTrigger (fst si)))
  /\ (FloatingMicrophone.audioSrc sm2 = Some u
      /\ played (fst sm2) = (played (fst sm) ++ [Url u])%list
      /\ map mic_state [sm; sm1; sm2; sm3]
         = [Some CustomerSpeaking; Some Processing; Some AISpeaking; Some Idle]
      /\ refreshTrigger (fst sm3) = refreshTrigger (fst sm)
      /\ refreshOrderCalls (fst sm3)
         = refreshOrderCalls (fst sm)
           + (if FloatingMicrophone.orderComponentRef (snd sm) then 1 else 0)).
Proof.
  destruct si as [wi ci], sm as [wm cm], k as [sid rid].
  destruct response as [ok url text changed]; simpl.
  intros Hk -> -> Hu -> Hi Hm Hr Hn.
  unfold cap_live in Hk; simpl in Hk.
  destruct sid as [sid|]; [| discriminate Hk].
  destruct rid as [rid|]; [| rewrite andb_false_r in Hk; discriminate Hk].
  unfold icon_state, mic_state in *; simpl in *.
  apply state_of_idle in Hi. destruct Hi as (Hiu & Hip & Hia).
  assert (Hm' : Speaker.isUserSpeaking (speaker wm) = true
                /\ Speaker.isAPIProcessing (speaker wm) = false
                /\ Speaker.isAISpeaking (speaker wm) = false).
  { destruct (Speaker.isUserSpeaking (speaker wm)),
      (Speaker.isAPIProcessing (speaker wm)), (Speaker.isAISpeaking (speaker wm));
      simpl in Hm; try discriminate Hm; auto. }
  destruct Hm' as (Hmu & Hmp & Hma).
  unfold SpeakerIcon.onstop, SpeakerIcon.processRecording_entry, cap_live; simpl.
  simpl in Hk.
  repeat (rewrite ?Hk, ?Hu, ?Hiu, ?Hip, ?Hia, ?Hmu, ?Hmp, ?Hma; simpl).
  split.
  - repeat split.
  - unfold FloatingMicrophone.autoPlay, FloatingMicrophone.audioSrc,
      FloatingMicrophone.rendered, JS.or_null in *; simpl in *.
    rewrite Hr; simpl. rewrite ?Hu; simpl.
    assert (Hplay : match
                      (if JS.truthy JS.truthy_string (FloatingMicrophone.audioUrl cm)
                       then FloatingMicrophone.audioUrl cm else None)
                    with
                    | Some u0 => String.eqb u0 u
                    | None => false
                    end = false).
    { destruct (FloatingMicrophone.audioUrl cm) as [u0|]; simpl; [| reflexivity].
      destruct (JS.truthy_string u0); [| reflexivity].
      apply String.eqb_neq. intros ->. apply Hn. reflexivity. }
    destruct (if JS.truthy JS.truthy_string (FloatingMicrophone.audioUrl cm)
              then FloatingMicrophone.audioUrl cm else None) as [u0|];
      [rewrite Hplay |];
      destruct (FloatingMicrophone.orderComponentRef cm); simpl;
      rewrite ?Hr, ?Nat.add_0_r, ?Nat.add_1_r; repeat split.
Qed.

Lemma scenario_B_witness :
  let k := mkCapture (Some "s1") (Some 1%Z) in
  let response := Api.mkProcessAudio true (Some "reply.mp3") "Anything else?" true in
  let si := (world0, SpeakerIcon.init) in
  let sm := (setUserSpeaking true world0, FloatingMicrophone.init) in
  let si1 := SpeakerIcon.onstop k si in
  let si2 := SpeakerIcon.processRecording_settled k (JS.Resolved response) si1 in
  let si3 := SpeakerIcon.audio_done ended si2 in
  let sm1 := FloatingMicrophone.onstop_entry k sm in
  let sm2 := FloatingMicrophone.onstop_settled (JS.Resolved response) sm1 in
  let sm3 := FloatingMicrophone.onEnded (FloatingMicrophone.onPlay sm2) in
  (map icon_state [si; si1; si2; si3]
   = [Some Idle; Some Processing; Some AISpeaking; Some Idle]
   /\ refreshTrigger (fst si1) = refreshTrigger (fst si)
   /\ refreshTrigger (fst si2) = S (refreshTrigger (fst si))
   /\ refreshTrigger (fst si3) = S (refreshTrigger (fst si)))
  /\ (FloatingMicrophone.audioSrc sm2 = Some "reply.mp3"
      /\ played (fst sm2) = (played (fst sm) ++ [Url "reply.mp3"])%list
      /\ map mic_state [sm; sm1; sm2; sm3]
         = [Some CustomerSpeaking; Some Processing; Some AISpeaking; Some Idle]
      /\ refreshTrigger (fst sm3) = refreshTrigger (fst sm)
      /\ refreshOrderCalls (fst sm3)
         = refreshOrderCalls (fst sm)
           + (if FloatingMicrophone.orderComponentRef (snd sm) then 1 else 0)).
Proof.
  apply (scenario_B (mkCapture (Some "s1") (Some 1%Z))
           (Api.mkProcessAudio true (Some "reply.mp3") "Anything else?" true)
           "reply.mp3" (world0, SpeakerIcon.init)
           (setUserSpeaking true world0, FloatingMicrophone.init));
    try reflexivity.
  discriminate.
Defined.

(** * Mutual exclusion *)

(** C2, as stated, fails: both sequences reach a state in which the customer
    and the AI are reported speaking at the same time. *)
Lemma both_speaking_reached :
  let a := run greeting_over_recording app0 in
  let b := run answer_over_second_recording app0 in
  (user_speaking a = true /\ ai_speaking a = true /\ exclusive a = false)
  /\ (user_speaking b = true /\ ai_speaking b = true /\ exclusive b = false).
Proof. vm_compute. repeat split. Qed.

(** Hence mutual exclusion is not an invariant of the reachable states. *)
Corollary exclusion_not_invariant :
  ~ (forall a : App, reachable a -> exclusive a = true).
Proof.
  intros H.
  specialize (H (run greeting_over_recording app0)).
  assert (R : reachable (run greeting_over_recording app0))
    by (exists greeting_over_recording; reflexivity).
  apply H in R. vm_compute in R. discriminate R.
Qed.

(** C2, amended.  SpeakerState holds independent flags and its setters are
    unconditional, so mutual exclusion is not an invariant.  It is kept by
    every step except two, neither of which looks at the other flag: a
    handler raises the AI flag (a playback starts, an answer carries an
    audio_url, the canned phrase has ended) while the customer is speaking,
    or startRecording resumes after the input stream was granted while the
    AI is speaking. *)
Theorem exclusion_broken_only_by_unguarded_steps (e : event) (a : App) :
  exclusive a = true ->
  exclusive (step e a) = false ->
  (user_speaking a = true /\ raises_ai_flag e = true)
  \/ (ai_speaking a = true /\ resumes_capture e = true).
Proof.
  split_app a.
  unfold exclusive, Speaker.exclusive, user_speaking, ai_speaking; simpl.
  intros H1. destruct ai, us; try discriminate H1; clear H1.
  all: destruct e; simpl; unfold_handlers; unfold ai_after, JS.or_null; simpl.
  all: case_step.
  all: simpl; intros H2; try discriminate H2; auto.
  all: unfold JS.truthy in *; simpl in *; rewrite ?andb_true_r, ?andb_false_r in *;
    simpl in *; try discriminate; auto.
  all: left; split; [reflexivity | now apply negb_false_iff].
Qed.

Lemma exclusion_broken_witness :
  (user_speaking (run new_car_while_recording app0) = true
   /\ raises_ai_flag GreetingPlay = true)
  \/ (ai_speaking (run new_car_while_recording app0) = true
      /\ resumes_capture GreetingPlay = true).
Proof.
  apply (exclusion_broken_only_by_unguarded_steps
           GreetingPlay (run new_car_while_recording app0));
    vm_compute; reflexivity.
Defined.

(** * What every sequence of events preserves *)

Lemma run_preserves (P : App -> Prop) :
  (forall e a, P a -> P (step e a)) -> forall es a, P a -> P (run es a).
Proof.
  intros Hstep es. induction es as [|e es IH]; intros a Ha; simpl; [exact Ha |].
  apply IH, Hstep, Ha.
Qed.

Lemma streams_accounted_step (e : event) (a : App) :
  streams_accounted a -> streams_accounted (step e a).
Proof.
  unfold streams_accounted, recorder_active.
  split_app a.
  destruct mref as [[[|] mk]|], iref as [[[|] ik]|].
  all: destruct e; simpl; unfold_handlers; simpl.
  all: case_step.
  all: simpl in *; rewrite ?length_app in *; simpl in *; try lia.
Qed.

(** X1.  Whatever the events, every stop event that is queued and every
    recorder a component can still stop has an open input stream of its own:
    the [onstop] handlers never release a stream that was not granted, and
    none twice. *)
Theorem streams_accounted_always (es : list event) : streams_accounted (run es app0).
Proof.
  apply run_preserves; [exact streams_accounted_step |].
  unfold streams_accounted; simpl. lia.
Qed.



Lemma speaking_is_recording_step (e : event) (a : App) :
  speaking_is_recording a -> speaking_is_recording (step e a).
Proof.
  unfold speaking_is_recording, user_speaking.
  destruct a as [w cc cm ci].
  destruct e; simpl; unfold_handlers; simpl.
  all: case_eq_step.
  all: simpl in *; auto.
  all: try (intros H H'; try discriminate; auto; fail).
  all: intuition congruence.
Qed.

(** X3.  Whatever the events, the customer is reported speaking only while
    FloatingMicrophone or SpeakerIcon is recording: isUserSpeaking is never
    left up by a capture that has ended. *)
Theorem customer_speaking_means_recording (es : list event) :
  speaking_is_recording (run es app0).
Proof.
  apply run_preserves; [exact speaking_is_recording_step |].
  intros H; discriminate H.
Qed.

Lemma or_null_idem (x : option string) : JS.or_null (JS.or_null x) = JS.or_null x.
Proof.
  unfold JS.or_null. destruct x as [s|]; simpl; [| reflexivity].
  destruct (JS.truthy_string s) eqn:E; simpl; rewrite ?E; reflexivity.
Qed.

Lemma restaurant_or_1_nonzero (r : option Z) : CarControl.restaurant_or_1 r <> 0%Z.
Proof.
  unfold CarControl.restaurant_or_1, JS.truthy_number.
  destruct r as [id|]; [| discriminate].
  destruct (Z.eqb_spec id 0); simpl; [discriminate | assumption].
Qed.

Local Arguments JS.or_null : simpl never.

Lemma session_consistent_step (e : event) (a : App) :
  session_consistent (session (world a)) /\ pending_restaurant_set (car a) ->
  session_consistent (session (world (step e a))) /\ pending_restaurant_set (car (step e a)).
Proof.
  unfold session_consistent, pending_restaurant_set.
  destruct a as [[[sid rid gr ld serr] sp rt al ap mc os sc pl rc]
                   [cur cip cerr spg pend ppl] cm ci].
  destruct sid, rid, pend; simpl; try tauto.
  all: destruct e; simpl; unfold_handlers; simpl.
  all: try pose proof (restaurant_or_1_nonzero restaurant).
  all: case_eq_step.
  all: simpl in *; rewrite ?or_null_idem; auto.
  all: try (intuition (try congruence); fail).
  all: repeat match goal with
         | H : JS.or_null _ = Some ?s |- context [JS.or_null (Some ?s)] =>
             rewrite <- H, or_null_idem
         end.
  all: intuition congruence.
Qed.

(** X4.  Whatever the events, the session id and the restaurant id are set
    together; the stored restaurant id is never 0 (New Car sends
    [restaurant?.id || 1]); a greeting is stored only with a session.  So
    the test [!sessionId || !restaurantId] of the microphone components
    amounts to a test of the session id alone. *)
Theorem session_fields_consistent (es : list event) :
  let s := session (world (run es app0)) in
  session_consistent s
  /\ Session.live s = JS.truthy JS.truthy_string (Session.sessionId s).
Proof.
  cbv zeta.
  assert (H : session_consistent (session (world (run es app0)))
              /\ pending_restaurant_set (car (run es app0))).
  { apply (run_preserves
             (fun a => session_consistent (session (world a))
                       /\ pending_restaurant_set (car a)));
      [exact session_consistent_step |].
    unfold session_consistent, pending_restaurant_set; simpl; auto. }
  destruct H as [H _]. split; [exact H |].
  revert H. generalize (session (world (run es app0))).
  intros [sid rid gr ld serr]. unfold session_consistent, Session.live; simpl.
  destruct sid as [sid|], rid as [rid|]; simpl; try tauto.
  intros [Hr _]. unfold JS.truthy_number.
  apply Z.eqb_neq in Hr. rewrite Hr. simpl. apply andb_true_r.
Qed.

Lemma captures_live_step (e : event) (a : App) :
  captures_live a -> captures_live (step e a).
Proof.
  unfold captures_live, recorder_live.
  split_app a. simpl.
  destruct mref as [[mst mk]|].
  all: destruct e; simpl; unfold_handlers; simpl.
  all: case_eq_step.
  all: simpl in *; rewrite ?forallb_app; simpl; auto.
  all: intros H; bool_facts; simpl in *; bool_facts.
  all: repeat match goal with H : ?x = true |- context [?x] => rewrite H end; simpl; auto.
  all: try (repeat split; reflexivity).
  all: repeat match goal with H : _ = Some _ |- _ => rewrite H end; simpl.
  all: repeat match goal with H : ?x = true |- context [?x] => rewrite H end; simpl; auto.
  all: repeat split; reflexivity.
Qed.

Lemma captures_live_always (es : list event) : captures_live (run es app0).
Proof.
  apply run_preserves; [exact captures_live_step |].
  unfold captures_live; simpl; auto 10.
Qed.

(** X5.  Whatever the events, every processAudio request that was sent to
    the backend carries a non-empty session id and a restaurant id that is
    not 0: no utterance is submitted without a session, neither by
    SpeakerIcon (guard of processRecording) nor by FloatingMicrophone
    (guard of startRecording, whose values the onstop closure keeps). *)
Theorem utterances_carry_live_session (es : list event) :
  forallb live_call (apiLog (world (run es app0))) = true.
Proof. exact (proj1 (captures_live_always es)). Qed.


Lemma car_in_step_step (e : event) (a : App) : car_in_step a -> car_in_step (step e a).
Proof.
  unfold car_in_step, request_pending.
  destruct a as [[[sid rid gr ld serr] sp rt al ap mc os sc pl rc]
                   [cur cip cerr spg pend ppl] cm ci].
  destruct pend; simpl.
  all: destruct e; simpl; unfold_handlers; simpl.
  all: intros [-> ->]; simpl.
  all: case_step; simpl; auto.
Qed.

(** X7.  Whatever the events, the processing flag of the car controls and
    the loading flag of the session provider are up exactly while a New Car
    or Next Customer request awaits its answer; and while one does, a click
    on either button changes nothing, so the car controls never have two
    session requests in flight and the flags never stay up once the answer
    has come. *)
Theorem car_requests_never_overlap (es : list event) (restaurant : option Z) :
  let a := run es app0 in
  car_in_step a
  /\ (request_pending (car a) = true ->
      step (NewCarClick restaurant) a = a /\ step NextCustomerClick a = a).
Proof.
  cbv zeta.
  assert (H : car_in_step (run es app0)).
  { apply run_preserves; [exact car_in_step_step |]. split; reflexivity. }
  split; [exact H |].
  revert H. generalize (run es app0). intros [w cc cm ci] [H _] Hp. simpl in *.
  rewrite Hp in H.
  unfold on_car, CarControl.clickNewCar, CarControl.clickNextCustomer, CarControl.disabled;
    simpl.
  rewrite H. simpl. rewrite !orb_true_r. simpl. split; reflexivity.
Qed.

Lemma car_requests_witness :
  let a := run [ NewCarClick None ] app0 in
  car_in_step a
  /\ (request_pending (car a) = true ->
      step (NewCarClick (Some 2%Z)) a = a /\ step NextCustomerClick a = a).
Proof. exact (car_requests_never_overlap [ NewCarClick None ] (Some 2%Z)). Defined.

Lemma playback_error_only_step (e : event) (a : App) :
  playback_error_only (car a) -> playback_error_only (car (step e a)).
Proof.
  unfold playback_error_only.
  destruct a as [w [cur cip cerr spg pend ppl] cm ci].
  destruct e; simpl; unfold_handlers; simpl.
  all: case_step; simpl; auto.
  all: intros; eexists; reflexivity.
Qed.

(** X8.  Whatever the events, the only error the car controls ever display
    is a playback failure of the greeting.  createSession and clearSession
    catch their own errors, so the catch branches of handleNewCar and
    handleCarArrived never run: a failed New Car or Next Customer is stored
    in the session provider's error only. *)
Theorem car_controls_show_playback_errors_only (es : list event) :
  playback_error_only (car (run es app0)).
Proof.
  apply (run_preserves (fun a => playback_error_only (car a)));
    [exact playback_error_only_step | exact I].
Qed.

Lemma refreshTrigger_step (e : event) (a : App) :
  refreshTrigger (world (step e a))
  = refreshTrigger (world a)
    + match e, SpeakerIcon.inflight (icon a) with
      | IconSettled r, _ :: _ => refreshes r
      | _, _ => 0
      end.
Proof.
  split_app a.
  destruct e; simpl; unfold_handlers; unfold refreshes; simpl.
  all: case_step; simpl; rewrite ?Nat.add_0_r, ?Nat.add_1_r; auto.
Qed.

(** X9.  The OrderRefreshToken never decreases, from any state and along
    any sequence of events, and it grows by at most the number of answers
    with a changed order that were delivered to SpeakerIcon: no other
    handler touches it. *)
Theorem refreshTrigger_monotone (es : list event) (a : App) :
  refreshTrigger (world a) <= refreshTrigger (world (run es a))
  /\ refreshTrigger (world (run es a)) <= refreshTrigger (world a) + order_changes es.
Proof.
  revert a. induction es as [|e es IH]; intros a; simpl.
  - unfold order_changes; simpl. lia.
  - destruct (IH (step e a)) as [L U].
    pose proof (refreshTrigger_step e a) as S.
    unfold order_changes in *; simpl.
    assert (D : match e, SpeakerIcon.inflight (icon a) with
                | IconSettled r, _ :: _ => refreshes r
                | _, _ => 0
                end
                <= match e with IconSettled r => refreshes r | _ => 0 end).
    { destruct e; try lia. destruct (SpeakerIcon.inflight (icon a)); lia. }
    lia.
Qed.

(** * Handlers beyond the claims *)

(** X10.  A denied input stream (the catch branch of startRecording) leaves
    the shared state as it is: SpeakerState is not touched and no stream is
    opened.  Afterwards the capture path is closed: a click on
    FloatingMicrophone, a call of its startRecording and a press on
    SpeakerIcon change nothing and request no device. *)
Theorem denied_stream_blocks_capture
        (isDisabled : bool) (sm : FloatingMicrophone.St) (si : SpeakerIcon.St) :
  let sm' := FloatingMicrophone.startRecording_denied sm in
  let si' := SpeakerIcon.startRecording_denied si in
  (fst sm' = fst sm
   /\ FloatingMicrophone.onClick sm' = sm'
   /\ FloatingMicrophone.startRecording_entry sm' = sm')
  /\ (fst si' = fst si
      /\ SpeakerIcon.handleMouseDown isDisabled si' = si').
Proof.
  destruct sm as [wm cm], si as [wi ci]. cbv zeta.
  unfold FloatingMicrophone.startRecording_denied, SpeakerIcon.startRecording_denied.
  assert (B : FloatingMicrophone.blocked
                (wm, FloatingMicrophone.setHasPermission (Some false) cm) = true).
  { unfold FloatingMicrophone.blocked; simpl.
    rewrite orb_true_r. reflexivity. }
  unfold FloatingMicrophone.onClick, FloatingMicrophone.startRecording_entry,
    SpeakerIcon.handleMouseDown.
  unfold FloatingMicrophone.blocked in B. simpl in *. rewrite B.
  repeat split.
  destruct isDisabled; [reflexivity |].
  destruct (SpeakerIcon.isProcessing ci); reflexivity.
Qed.

(** X11.  Once the greeting has ended or failed, its player is unmounted:
    the AI flag is down (if the player was mounted) and a late play, ended
    or error event of the element changes nothing.  Only the settlement of a
    [play()] promise still reaches its handler: a rejection runs
    handleAudioError once more, which lowers the AI flag and replaces the
    error; it never brings the greeting back. *)
Theorem greeting_over_stays_off
        (a : App) (message late : string) (r : JS.settled unit) :
  let settled (x : App) :=
    let y := step (GreetingPlaySettled r) x in
    greeting_mounted y = false
    /\ match r, CarControl.playPending (car x) with
       | JS.Rejected m, S _ =>
           ai_speaking y = false
           /\ CarControl.error (car y) = Some ("Audio playback failed: " ++ m)
       | _, _ =>
           ai_speaking y = ai_speaking x
           /\ CarControl.error (car y) = CarControl.error (car x)
       end in
  let over (x : App) :=
    greeting_mounted x = false
    /\ ai_speaking x = (if greeting_mounted a then false else ai_speaking a)
    /\ step GreetingPlay x = x
    /\ step GreetingEnded x = x
    /\ step (GreetingError late) x = x
    /\ settled x in
  over (step GreetingEnded a) /\ over (step (GreetingError message) a).
Proof.
  cbv zeta. unfold step.
  assert (O : greeting_mounted (on_car CarControl.handleAudioPlayEnd a) = false).
  { destruct a as [w [cur cip cerr spg pend ppl] cm ci]; reflexivity. }
  assert (B : greeting_mounted (on_car (CarControl.handleAudioError message) a) = false).
  { destruct a as [w [cur cip cerr spg pend ppl] cm ci]; reflexivity. }
  assert (S : forall x, greeting_mounted x = false ->
                        greeting_mounted (on_car (CarControl.play_settled r) x) = false).
  { intros [w [cur cip cerr spg pend ppl] cm ci].
    unfold greeting_mounted; simpl. destruct r; simpl; auto. }
  destruct (greeting_mounted a) eqn:M; rewrite ?O, ?B, ?M.
  - destruct a as [w [cur cip cerr spg pend [|ppl]] cm ci], r as [[] | m];
      repeat split.
  - destruct (CarControl.playPending (car a)) eqn:P; [destruct r; repeat split; exact M |].
    destruct a as [w [cur cip cerr spg pend ppl] cm ci]; simpl in *; subst ppl.
    destruct r as [[] | m]; repeat split; try exact M; apply (S _ M).
Qed.

(** X12.  A failed request in SpeakerIcon (a rejection or an answer without
    success) always ends with the component ready again: once the canned
    phrase has settled, the processing flag is down, the order refresh
    token is what it was and exactly the phrase come_again was played.  If
    the phrase was played to its end, the AI flag is up until the timeout
    lowers it; if it could not be played, SpeakerState is untouched. *)
Theorem SpeakerIcon_failure_ends_ready
        (k : Capture) (r : JS.settled Api.ProcessAudio) (phrase : JS.settled unit)
        (st : SpeakerIcon.St) :
  request_failed r = true ->
  let st1 := SpeakerIcon.processRecording_settled k r st in
  let st2 := SpeakerIcon.processRecording_canned phrase st1 in
  SpeakerIcon.isProcessing (snd st2) = false
  /\ SpeakerIcon.cannedPending (snd st2) = SpeakerIcon.cannedPending (snd st)
  /\ refreshTrigger (fst st2) = refreshTrigger (fst st)
  /\ played (fst st2)
     = (played (fst st) ++ [CannedPhraseUrl "come_again" (cap_restaurantId k)])%list
  /\ match phrase with
     | JS.Resolved _ =>
         Speaker.isAISpeaking (speaker (fst st2)) = true
         /\ SpeakerIcon.timeouts (snd st2) = S (SpeakerIcon.timeouts (snd st))
         /\ Speaker.isAISpeaking (speaker (fst (SpeakerIcon.timeout st2))) = false
         /\ SpeakerIcon.timeouts (snd (SpeakerIcon.timeout st2))
            = SpeakerIcon.timeouts (snd st)
     | JS.Rejected _ =>
         speaker (fst st2) = speaker (fst st)
         /\ SpeakerIcon.timeouts (snd st2) = SpeakerIcon.timeouts (snd st)
     end.
Proof.
  destruct st as [w c].
  destruct r as [[[|] url text changed] | m]; simpl; intros H; try discriminate;
    destruct phrase; repeat split.
Qed.

Lemma SpeakerIcon_failure_witness :
  let k := mkCapture (Some "s1") (Some 1%Z) in
  let st := (world0, SpeakerIcon.init) in
  let st1 := SpeakerIcon.processRecording_settled k network_error st in
  let st2 := SpeakerIcon.processRecording_canned (JS.Resolved tt) st1 in
  SpeakerIcon.isProcessing (snd st2) = false
  /\ SpeakerIcon.cannedPending (snd st2) = SpeakerIcon.cannedPending (snd st)
  /\ refreshTrigger (fst st2) = refreshTrigger (fst st)
  /\ played (fst st2)
     = (played (fst st) ++ [CannedPhraseUrl "come_again" (cap_restaurantId k)])%list
  /\ (Speaker.isAISpeaking (speaker (fst st2)) = true
      /\ SpeakerIcon.timeouts (snd st2) = S (SpeakerIcon.timeouts (snd st))
      /\ Speaker.isAISpeaking (speaker (fst (SpeakerIcon.timeout st2))) = false
      /\ SpeakerIcon.timeouts (snd (SpeakerIcon.timeout st2))
         = SpeakerIcon.timeouts (snd st)).
Proof.
  apply (SpeakerIcon_failure_ends_ready (mkCapture (Some "s1") (Some 1%Z)) network_error
           (JS.Resolved tt) (world0, SpeakerIcon.init)).
  reflexivity.
Defined.

(** * Formatting *)

Lemma length_append (s t : string) :
  String.length (s ++ t) = String.length s + String.length t.
Proof. induction s as [|c s IH]; simpl; [reflexivity | now rewrite IH]. Qed.

Lemma append_inj_l (s t u : string) : s ++ t = s ++ u -> t = u.
Proof.
  induction s as [|c s IH]; simpl; intros H; [exact H | injection H as H; auto].
Qed.

Lemma append_inj_length (s t u v : string) :
  s ++ t = u ++ v -> String.length t = String.length v -> s = u /\ t = v.
Proof.
  revert u. induction s as [|c s IH]; intros [|d u]; simpl; intros H L.
  - auto.
  - subst t. simpl in L. rewrite length_append in L. lia.
  - subst v. simpl in L. rewrite length_append in L. lia.
  - injection H as -> H. destruct (IH u H L) as [-> ->]. auto.
Qed.

Lemma toString_inj (a b : nat) : toString a = toString b -> a = b.
Proof.
  unfold toString. intros H.
  apply (f_equal NilEmpty.uint_of_string) in H. rewrite !NilEmpty.usu in H.
  injection H as H. apply (f_equal Nat.of_uint) in H.
  now rewrite !DecimalNat.Unsigned.of_to in H.
Qed.

Lemma numberToString_inj (a b : Z) : numberToString a = numberToString b -> a = b.
Proof.
  unfold numberToString. intros H.
  assert (N : forall z, Z.to_int z <> Pos Nil /\ Z.to_int z <> Neg Nil).
  { intros [|p|p]; simpl; split; try discriminate;
      intros E; injection E as E; revert E; apply DecimalPos.Unsigned.to_uint_nonnil. }
  apply (f_equal NilZero.int_of_string) in H.
  rewrite !NilZero.isi in H by apply N.
  injection H as H. apply (f_equal Z.of_int) in H.
  now rewrite !DecimalZ.of_to in H.
Qed.

(** The sixty values of the seconds field, checked one by one. *)
Lemma secondsField_table :
  forallb (fun a =>
             String.eqb (secondsField a)
                        (String (digit (a / 10)) (String (digit (a mod 10)) EmptyString))
             && forallb (fun b => implb (String.eqb (secondsField a) (secondsField b))
                                        (Nat.eqb a b))
                        (seq 0 60))
          (seq 0 60) = true.
Proof. vm_compute. reflexivity. Qed.

Lemma secondsField_spec (a : nat) :
  a < 60 ->
  secondsField a = String (digit (a / 10)) (String (digit (a mod 10)) EmptyString)
  /\ forall b, b < 60 -> secondsField a = secondsField b -> a = b.
Proof.
  intros Ha. pose proof secondsField_table as T.
  rewrite forallb_forall in T. specialize (T a).
  assert (Ia : In a (seq 0 60)) by (apply in_seq; lia).
  apply T in Ia. apply andb_true_iff in Ia. destruct Ia as [L I].
  split; [now apply String.eqb_eq |].
  intros b Hb E. rewrite forallb_forall in I.
  assert (Ib : In b (seq 0 60)) by (apply in_seq; lia).
  apply I in Ib. rewrite E, String.eqb_refl in Ib. simpl in Ib. now apply Nat.eqb_eq.
Qed.

Lemma time_fields_inj (m1 s1 m2 s2 : nat) :
  s1 < 60 -> s2 < 60 ->
  toString m1 ++ ":" ++ secondsField s1 = toString m2 ++ ":" ++ secondsField s2 ->
  m1 = m2 /\ s1 = s2.
Proof.
  intros H1 H2 H.
  destruct (secondsField_spec _ H1) as [L1 I1].
  destruct (secondsField_spec _ H2) as [L2 _].
  apply append_inj_length in H.
  - destruct H as [Hm Hs]. apply toString_inj in Hm.
    injection Hs as Hs. apply I1 in Hs; auto.
  - rewrite L1, L2. reflexivity.
Qed.

(** X13.  formatTime is injective: two recording times that are displayed
    alike are equal. *)
Theorem formatTime_injective (a b : nat) : formatTime a = formatTime b -> a = b.
Proof.
  intros H.
  destruct (time_fields_inj (a / 60) (a mod 60) (b / 60) (b mod 60)) as [Hm Hs].
  - apply Nat.mod_upper_bound; discriminate.
  - apply Nat.mod_upper_bound; discriminate.
  - exact H.
  - rewrite (Nat.div_mod_eq a 60), Hm, Hs. symmetry. apply Nat.div_mod_eq.
Qed.

Lemma formatTime_injective_witness :
  formatTime (60 + 65) = formatTime 125 /\ 60 + 65 = 125.
Proof. split; [reflexivity | apply (formatTime_injective (60 + 65) 125); reflexivity]. Defined.

(** X14.  formatTime shows the whole minutes without padding, a colon, and
    the seconds always with exactly two decimal digits, the tens first (a
    leading 0 below ten seconds). *)
Theorem formatTime_two_digit_seconds (seconds : nat) :
  formatTime seconds
  = toString (seconds / 60) ++ ":"
      ++ String (digit (seconds mod 60 / 10))
           (String (digit (seconds mod 60 mod 10)) EmptyString).
Proof.
  unfold formatTime. cbv zeta.
  destruct (secondsField_spec (seconds mod 60)) as [-> _]; [| reflexivity].
  apply Nat.mod_upper_bound; discriminate.
Qed.

(** getCannedPhraseUrl and getImageUrl treat the restaurant id 0 like a
    missing one. *)
Lemma restaurant_zero_is_default (env : Env) (name : string) :
  getCannedPhraseUrl env name (Some 0%Z) = getCannedPhraseUrl env name None
  /\ getImageUrl env name (Some 0%Z) = getImageUrl env name None.
Proof. split; reflexivity. Qed.

(** X15.  For restaurant ids other than 0, getCannedPhraseUrl and
    getImageUrl are injective in the restaurant id: two restaurants never
    share the URL of a phrase or of an image, whatever the environment. *)
Theorem getUrl_injective (env : Env) (name : string) (r1 r2 : Z) :
  r1 <> 0%Z -> r2 <> 0%Z ->
  getCannedPhraseUrl env name (Some r1) = getCannedPhraseUrl env name (Some r2)
  \/ getImageUrl env name (Some r1) = getImageUrl env name (Some r2) ->
  r1 = r2.
Proof.
  intros H1 H2. unfold getCannedPhraseUrl, getImageUrl, restaurantSegment, JS.truthy_number.
  apply Z.eqb_neq in H1, H2. rewrite H1, H2. simpl negb. cbv iota.
  intros [H | H]; apply append_inj_l in H; apply append_inj_l in H;
    apply append_inj_length in H; try reflexivity;
    destruct H as [H _]; now apply numberToString_inj.
Qed.

Lemma getUrl_injective_witness :
  (12 <> 0 /\ 7 + 5 <> 0)%Z
  /\ getImageUrl (mkEnv None None) "logo.png" (Some 12%Z)
     = getImageUrl (mkEnv None None) "logo.png" (Some (7 + 5)%Z)
  /\ (12 = 7 + 5)%Z.
Proof.
  split; [split; discriminate |]. split; [reflexivity |].
  apply (getUrl_injective (mkEnv None None) "logo.png" 12 (7 + 5));
    [discriminate | discriminate | right; reflexivity].
Defined.
